(** * Appointment scheduling core of the spa booking backend

    A shallow embedding of [api/routes/booking.py], [core/config.py] and
    [core/database.py]: the admission of a booking ([create_booking]), the
    lookup of one ([get_booking]) and the slot listing
    ([get_available_slots]), followed by the properties of the scheduling
    core that hold of them and the inputs at which others fail. *)

From Stdlib Require Import ZArith Lia List Sorted String Ascii.
From Corelib Require Import PrimFloat.
From stdpp Require Import gmap strings list.

Local Open Scope string_scope.
Local Open Scope Z_scope.

(** ** Dates and times of day

    A [datetime.date] is kept as its proleptic Gregorian ordinal
    ([date.toordinal()], day 1 is Monday 0001-01-01) and a time of day as
    the minute of the day, [0 <= t < 1440].  Every time the routes handle
    comes from the format [%H:%M], so it has no seconds; the text [HH:MM]
    it is printed as is zero padded, and on such texts the order and the
    equality of strings are those of the minutes
    ([strftime_HM_compare] below). *)
Module Clock.

Record datetime : Type := mk_datetime { dt_date : Z; dt_minute : Z }.

(** [(datetime.combine(d, t) + timedelta(minutes=m)).time()] *)
Definition time_plus (t m : Z) : Z := (t + m) mod 1440.

(** [dt + timedelta(minutes=m)] *)
Definition datetime_plus (dt : datetime) (m : Z) : datetime :=
  {| dt_date := dt_date dt + (dt_minute dt + m) / 1440;
     dt_minute := (dt_minute dt + m) mod 1440 |}.

(** [a <= b] on datetimes *)
Definition datetime_leb (a b : datetime) : bool :=
  (dt_date a <? dt_date b) || ((dt_date a =? dt_date b) && (dt_minute a <=? dt_minute b)).

(** [a == b] on datetimes *)
Definition datetime_eqb (a b : datetime) : bool :=
  (dt_date a =? dt_date b) && (dt_minute a =? dt_minute b).

(** A [date] given where a value of a DateTime column is expected: the
    database takes it as the datetime at 00:00 of that day. *)
Definition at_midnight (day : Z) : datetime := {| dt_date := day; dt_minute := 0 |}.

Definition weekday_names : list string :=
  ["monday"; "tuesday"; "wednesday"; "thursday"; "friday"; "saturday"; "sunday"].

(** [d.strftime("%A").lower()]; [date.weekday()] is [(toordinal() + 6) % 7] *)
Definition day_name (date : Z) : string :=
  nth (Z.to_nat ((date + 6) mod 7)) weekday_names "".

(** Two decimal digits, as [%H] and [%M] print them. *)
Definition digit (d : Z) : ascii := ascii_of_nat (48 + Z.to_nat d).
Definition two_digits (n : Z) : string :=
  String (digit (n / 10)) (String (digit (n mod 10)) EmptyString).

(** [t.strftime("%H:%M")] *)
Definition strftime_HM (t : Z) : string :=
  two_digits (t / 60) +:+ ":" +:+ two_digits (t mod 60).

(** Whether the order of the two digit texts of [x] and [y] is the order
    of [x] and [y]. *)
Definition two_digits_agree (x y : Z) : bool :=
  match String.compare (two_digits x) (two_digits y), x ?= y with
  | Eq, Eq | Lt, Lt | Gt, Gt => true
  | _, _ => false
  end.

End Clock.
Export Clock.

(** ** core/config.py *)
Module Config.

(** One entry of [Settings.business_hours], the open and close times read
    as minutes of the day. *)
Record Hours : Type := mk_hours { open : Z; close : Z }.

Record Settings : Type := mk_settings {
  spa_manager_email : string;
  business_hours : gmap string Hours;
  appointment_duration : Z;
  buffer_time : Z
}.

(** The instance built when no environment variable is set. *)
Definition settings : Settings :=
  {| spa_manager_email := "manager@yourspa.com";
     business_hours :=
       list_to_map
         [ ("monday",    mk_hours 540 1200);
           ("tuesday",   mk_hours 540 1200);
           ("wednesday", mk_hours 540 1200);
           ("thursday",  mk_hours 540 1200);
           ("friday",    mk_hours 540 1200);
           ("saturday",  mk_hours 600 1080);
           ("sunday",    mk_hours 600 960) ];
     appointment_duration := 60;
     buffer_time := 15 |}.

End Config.
Export Config.

(** ** core/database.py *)
Module Database.

Record Service : Type := mk_service {
  service_id : Z;
  name : string;
  description : string;
  duration : Z;
  price : float;
  category : string;
  is_active : bool
}.

(** A row of the table [bookings].  [appointment_date] is the DateTime
    column, which [create_booking] fills with the whole appointment
    datetime; [appointment_time] is the [HH:MM] text, kept as its minute
    of the day; [status] is free text with the column default
    ["confirmed"]. *)
Record Booking : Type := mk_booking {
  id : Z;
  client_name : string;
  client_email : string;
  client_phone : string;
  service_name : string;
  service_duration : Z;
  appointment_date : datetime;
  appointment_time : Z;
  total_price : float;
  status : string;
  special_requests : option string;
  google_calendar_event_id : option string;
  created_at : datetime;
  updated_at : datetime
}.

(** What a [Session] reads and writes: the two tables, rows in insertion
    order. *)
Record Session : Type := mk_session {
  services : list Service;
  bookings : list Booking
}.

(** The integer primary key of a freshly inserted row: one more than the
    largest key in the table. *)
Definition next_id (rows : list Booking) : Z :=
  1 + fold_right Z.max 0 (map id rows).

(** [db.query(Service).filter(Service.name == n, Service.is_active == True)] *)
Definition active_services_named (db : Session) (n : string) : list Service :=
  List.filter (fun s => bool_decide (name s = n) && is_active s) (services db).

(** [x BETWEEN lo AND hi], both ends included *)
Definition between (x lo hi : Z) : bool := (lo <=? x) && (x <=? hi).

(** [db.query(Booking).filter(Booking.appointment_date == day,
    Booking.status == "confirmed")].  The column is a DateTime, which
    [create_booking] fills with the day, hour and minute of the
    appointment, and [day] is a date: the row is selected when the stored
    datetime is that day at 00:00, so no row stored with another time of
    day is. *)
Definition confirmed_on (db : Session) (day : Z) : list Booking :=
  List.filter
    (fun b => datetime_eqb (appointment_date b) (at_midnight day)
              && bool_decide (status b = "confirmed"))
    (bookings db).

(** The services [init_db] fills an empty catalogue with. *)
Definition default_services : list Service :=
  [ mk_service 1 "Swedish Massage"
      "Relaxing full-body massage using long, flowing strokes" 60 80 "massage" true;
    mk_service 2 "Deep Tissue Massage"
      "Therapeutic massage targeting deep muscle layers" 60 90 "massage" true;
    mk_service 3 "Hot Stone Massage"
      "Massage with heated stones for ultimate relaxation" 75 110 "massage" true;
    mk_service 4 "Classic Facial"
      "Cleansing, exfoliating, and nourishing facial treatment" 60 70 "facial" true;
    mk_service 5 "Anti-Aging Facial"
      "Advanced facial with anti-aging ingredients" 75 95 "facial" true;
    mk_service 6 "Body Scrub"
      "Exfoliating body treatment with natural ingredients" 45 65 "body_treatment" true;
    mk_service 7 "Aromatherapy Session"
      "Therapeutic session using essential oils" 60 85 "wellness" true ].

(** The database after [init_db] on a new file: the default services and
    no booking. *)
Definition init_db : Session := {| services := default_services; bookings := [] |}.

End Database.
Export Database.

(** ** api/routes/booking.py *)
Module Routes.

(** The [HTTPException]s the booking routes raise, one constructor per
    [raise]; [status_code] gives the HTTP status of each. *)
Inductive HTTPException : Type :=
| ServiceNotFound                       (* "Service not found" *)
| InvalidDateTimeFormat                 (* "Invalid date/time format" *)
| InvalidDateFormat                     (* "Invalid date format" *)
| NotInFuture                           (* "Appointment must be in the future" *)
| ClosedOnDay                           (* "Spa is closed on this day" *)
| OutsideOpenClose (h : Hours) (day : string)
                                        (* "Spa is open from .. to .. on .." *)
| SlotAlreadyBooked                     (* "Time slot is already booked" *)
| BookingNotFound.                      (* "Booking not found" *)

Definition status_code (e : HTTPException) : Z :=
  match e with
  | ServiceNotFound | BookingNotFound => 404
  | SlotAlreadyBooked => 409
  | _ => 400
  end.

(** A route either returns a value or raises. *)
Inductive result (A : Type) : Type :=
| Ok (a : A)
| Raise (e : HTTPException).
Arguments Ok {A} a.
Arguments Raise {A} e.

#[export] Instance result_ret : MRet result := fun A a => Ok a.
#[export] Instance result_bind : MBind result := fun A B f m =>
  match m with
  | Ok a => f a
  | Raise e => Raise e
  end.

(** [if c: raise e] *)
Definition raise_if (c : bool) (e : HTTPException) : result unit :=
  if c then Raise e else Ok tt.

(** [.first()] followed by [if not row: raise e] *)
Definition first_or {A : Type} (rows : list A) (e : HTTPException) : result A :=
  match rows with
  | row :: _ => Ok row
  | [] => Raise e
  end.

(** [if row:] on what [.first()] returned *)
Definition found {A : Type} (row : option A) : bool :=
  match row with
  | Some _ => true
  | None => false
  end.

(** The request body.  The two texts [appointment_date] ([YYYY-MM-DD])
    and [appointment_time] ([HH:MM]) are carried as what [strptime] reads
    from them, [None] for a text it refuses. *)
Record BookingRequest : Type := mk_request {
  req_client_name : string;
  req_client_email : string;
  req_client_phone : string;
  req_service_name : string;
  req_appointment_date : option Z;
  req_appointment_time : option Z;
  req_special_requests : option string
}.

Record BookingResponse : Type := mk_response {
  booking_id : Z;
  confirmation_code : string;
  appointment_datetime : datetime;
  resp_service_name : string;
  resp_total_price : float;
  resp_status : string
}.

(** [datetime.strptime(f"{date} {time}", "%Y-%m-%d %H:%M")] *)
Definition strptime (r : BookingRequest) : result datetime :=
  match req_appointment_date r, req_appointment_time r with
  | Some d, Some t => Ok (mk_datetime d t)
  | _, _ => Raise InvalidDateTimeFormat
  end.

(** What a call reads from outside the database: the clocks
    ([datetime.now()] cut to the minute, which decides the same
    comparisons with a time that has no seconds; [datetime.utcnow()] at the
    insert; and [datetime.utcnow()] at the update that stores the calendar
    event id), the 128 bit integer of the [uuid.uuid4()] it draws, and the
    event id [add_to_calendar] answers with ([None] also when it raises,
    which the route swallows). *)
Record Env : Type := mk_env {
  now : datetime;
  utcnow : datetime;
  utcnow_on_update : datetime;
  uuid4 : Z;
  calendar_event_id : option string
}.

(** *** The confirmation code: [str(uuid.uuid4())[:8].upper()] *)

Definition hex_digit (d : Z) : ascii :=
  nth (Z.to_nat d) (list_ascii_of_string "0123456789abcdef") "0"%char.

(** ['%0{width}x' % n] on the low [4 * width] bits of [n] *)
Fixpoint hex (width : nat) (n : Z) : list ascii :=
  match width with
  | O => []
  | S w => hex_digit ((n / 16 ^ Z.of_nat w) mod 16) :: hex w n
  end.

(** [str(UUID(int=n))]: the 32 hexadecimal digits in groups of 8, 4, 4, 4
    and 12 *)
Definition str_uuid (n : Z) : string :=
  let h := hex 32 n in
  string_of_list_ascii
    (firstn 8 h ++ "-"%char :: firstn 4 (skipn 8 h) ++ "-"%char :: firstn 4 (skipn 12 h)
       ++ "-"%char :: firstn 4 (skipn 16 h) ++ "-"%char :: skipn 20 h).

Definition upper_ascii (c : ascii) : ascii :=
  let n := nat_of_ascii c in
  if (Nat.leb 97 n && Nat.leb n 122)%bool then ascii_of_nat (n - 32) else c.

(** [s.upper()] *)
Fixpoint upper (s : string) : string :=
  match s with
  | EmptyString => EmptyString
  | String c s' => String (upper_ascii c) (upper s')
  end.

Definition new_confirmation_code (env : Env) : string :=
  upper (String.substring 0 8 (str_uuid (uuid4 env))).

(** One [send_booking_confirmation] task handed to [background_tasks]. *)
Record EmailTask : Type := mk_email {
  to_email : string;
  to_name : string;
  email_service_name : string;
  email_appointment : datetime;
  email_price : float;
  email_confirmation_code : string;
  is_manager : bool
}.

(** What a call of [create_booking] that returns leaves behind. *)
Record Created : Type := mk_created {
  response : BookingResponse;
  session : Session;
  background_tasks : list EmailTask
}.

(** *** POST /book *)

(** The row [Booking(...)] builds and [db.add], [db.commit] and
    [db.refresh] complete: the primary key, the defaults of [status],
    [created_at] and [updated_at], and the calendar event id set
    afterwards. *)
Definition new_booking (env : Env) (db : Session) (booking_request : BookingRequest)
    (service : Service) (appointment_datetime : datetime) : Booking :=
  {| id := next_id (bookings db);
     client_name := req_client_name booking_request;
     client_email := req_client_email booking_request;
     client_phone := req_client_phone booking_request;
     service_name := name service;
     service_duration := duration service;
     appointment_date := appointment_datetime;
     appointment_time := dt_minute appointment_datetime;
     total_price := price service;
     status := "confirmed";
     special_requests := req_special_requests booking_request;
     google_calendar_event_id := calendar_event_id env;
     created_at := utcnow env;
     updated_at := match calendar_event_id env with
                   | Some _ => utcnow_on_update env
                   | None => utcnow env
                   end |}.

(** The rows the conflict query selects: [appointment_date], the stored
    datetime, equal to [appointment_datetime.date()], a date and so the
    requested day at 00:00; status ["confirmed"]; and [appointment_time]
    between the requested start and end texts. *)
Definition conflicting_bookings (db : Session) (appointment_datetime end_time : datetime)
    : list Booking :=
  List.filter
    (fun b => datetime_eqb (appointment_date b) (at_midnight (dt_date appointment_datetime))
              && bool_decide (status b = "confirmed")
              && between (appointment_time b)
                         (dt_minute appointment_datetime) (dt_minute end_time))
    (bookings db).

(** What [create_booking] does once every check has passed: the insert,
    the two background tasks and the response. *)
Definition book (cfg : Settings) (env : Env) (db : Session)
    (booking_request : BookingRequest) (service : Service)
    (appointment_datetime : datetime) : Created :=
  let confirmation_code := new_confirmation_code env in
  let booking := new_booking env db booking_request service appointment_datetime in
  {| response :=
       {| booking_id := id booking;
          confirmation_code := confirmation_code;
          appointment_datetime := appointment_datetime;
          resp_service_name := name service;
          resp_total_price := price service;
          resp_status := status booking |};
     session := {| services := services db; bookings := bookings db ++ [booking] |};
     background_tasks :=
       [ mk_email (req_client_email booking_request) (req_client_name booking_request)
                  (name service) appointment_datetime (price service)
                  confirmation_code false;
         mk_email (spa_manager_email cfg) "Spa Manager"
                  (name service) appointment_datetime (price service)
                  confirmation_code true ] |}.

Definition create_booking (cfg : Settings) (env : Env) (db : Session)
    (booking_request : BookingRequest) : result Created :=
  (* Validate service exists *)
  service ← first_or (active_services_named db (req_service_name booking_request))
                     ServiceNotFound;
  (* Parse appointment datetime *)
  appointment_datetime ← strptime booking_request;
  (* Check if appointment is in the future *)
  _ ← raise_if (datetime_leb appointment_datetime (now env)) NotInFuture;
  (* Check business hours *)
  let day_of_week := day_name (dt_date appointment_datetime) in
  match business_hours cfg !! day_of_week with
  | None => Raise ClosedOnDay
  | Some hours =>
    let appointment_time := dt_minute appointment_datetime in
    _ ← raise_if ((appointment_time <? open hours) || (close hours <? appointment_time))
                 (OutsideOpenClose hours day_of_week);
    (* Check for conflicting bookings *)
    let end_time := datetime_plus appointment_datetime (duration service) in
    let conflicting_booking := head (conflicting_bookings db appointment_datetime end_time) in
    _ ← raise_if (found conflicting_booking) SlotAlreadyBooked;
    (* Create booking *)
    mret (book cfg env db booking_request service appointment_datetime)
  end.

(** The database a call leaves: a call that raises has written nothing. *)
Definition session_after (db : Session) (r : result Created) : Session :=
  match r with
  | Ok c => session c
  | Raise _ => db
  end.

(** *** GET /bookings/{booking_id} *)

Record BookingDetails : Type := mk_details {
  details_id : Z;
  details_client_name : string;
  details_client_email : string;
  details_service_name : string;
  details_appointment_date : datetime;
  details_appointment_time : Z;
  details_total_price : float;
  details_status : string;
  details_created_at : datetime
}.

Definition get_booking (db : Session) (booking_id : Z) : result BookingDetails :=
  booking ← first_or (List.filter (fun b => id b =? booking_id) (bookings db))
                     BookingNotFound;
  mret {| details_id := id booking;
          details_client_name := client_name booking;
          details_client_email := client_email booking;
          details_service_name := service_name booking;
          details_appointment_date := appointment_date booking;
          details_appointment_time := appointment_time booking;
          details_total_price := total_price booking;
          details_status := status booking;
          details_created_at := created_at booking |}.

(** *** GET /available-slots

    The three [while] loops run on fuel: [None] when a loop has not left
    within [fuel] turns.  A time of day wraps at midnight ([time_plus]),
    so a loop can fail to leave at all. *)

(** [while current_time < booking_end:] add the time, step 15 minutes *)
Fixpoint add_booking_times (fuel : nat) (current_time booking_end : Z)
    (booked_times : gset Z) : option (gset Z) :=
  match fuel with
  | O => None
  | S fuel' =>
    if current_time <? booking_end
    then add_booking_times fuel' (time_plus current_time 15) booking_end
                           ({[ current_time ]} ∪ booked_times)
    else Some booked_times
  end.

(** [for booking in existing_bookings:] *)
Fixpoint collect_booked_times (fuel : nat) (existing_bookings : list Booking)
    (booked_times : gset Z) : option (gset Z) :=
  match existing_bookings with
  | [] => Some booked_times
  | booking :: rest =>
    let booking_start := appointment_time booking in
    let booking_end := time_plus (appointment_time booking) (service_duration booking) in
    booked_times' ← add_booking_times fuel booking_start booking_end booked_times;
    collect_booked_times fuel rest booked_times'
  end.

(** [while check_time < slot_end:] leave with [False] at a booked time *)
Fixpoint slot_is_available (fuel : nat) (check_time slot_end : Z)
    (booked_times : gset Z) : option bool :=
  match fuel with
  | O => None
  | S fuel' =>
    if check_time <? slot_end
    then if bool_decide (check_time ∈ booked_times)
         then Some false
         else slot_is_available fuel' (time_plus check_time 15) slot_end booked_times
    else Some true
  end.

(** [while current_time <= end_time:]; [inner] is the fuel of the loop
    within. *)
Fixpoint generate_slots (fuel inner : nat) (cfg : Settings) (duration end_time : Z)
    (booked_times : gset Z) (current_time : Z) (available_slots : list Z)
    : option (list Z) :=
  match fuel with
  | O => None
  | S fuel' =>
    if current_time <=? end_time
    then
      let slot_end := time_plus current_time duration in
      available_slots' ←
        (if slot_end <=? end_time
         then is_available ← slot_is_available inner current_time slot_end booked_times;
              Some (if is_available : bool
                    then (available_slots ++ [current_time])%list
                    else available_slots)
         else Some available_slots);
      generate_slots fuel' inner cfg duration end_time booked_times
                     (time_plus current_time (buffer_time cfg + 15)) available_slots'
    else Some available_slots
  end.

(** [date] is the query text [YYYY-MM-DD] as [strptime] reads it, [None]
    for a text it refuses; the slots are returned as minutes of the
    day. *)
Definition get_available_slots (fuel : nat) (cfg : Settings) (db : Session)
    (date : option Z) (service_name : string) : option (result (list Z)) :=
  match first_or (active_services_named db service_name) ServiceNotFound with
  | Raise e => Some (Raise e)
  | Ok service =>
    match date with
    | None => Some (Raise InvalidDateFormat)
    | Some target_date =>
      let day_of_week := day_name target_date in
      match business_hours cfg !! day_of_week with
      | None => Some (Ok [])
      | Some hours =>
        let start_time := open hours in
        let end_time := close hours in
        let existing_bookings := confirmed_on db target_date in
        booked_times ← collect_booked_times fuel existing_bookings ∅;
        available_slots ← generate_slots fuel fuel cfg (duration service) end_time
                                         booked_times start_time [];
        Some (Ok available_slots)
      end
    end
  end.

End Routes.
Export Routes.

(** ** The notions the properties are stated with *)
Module Ledger.

(** The half-open overlap test on [a_start, a_end) and [b_start, b_end). *)
Definition overlaps (a_start a_end b_start b_end : Z) : Prop :=
  a_start < b_end /\ b_start < a_end.

(** The interval [start, start + duration) of a booking, in minutes of the
    day. *)
Definition booking_start (b : Booking) : Z := appointment_time b.
Definition booking_end (b : Booking) : Z := appointment_time b + service_duration b.

Definition on_day (day : Z) (b : Booking) : Prop := dt_date (appointment_date b) = day.

(** A booking that holds its slot: status pending or confirmed. *)
Definition holds_slot (b : Booking) : Prop :=
  status b = "pending" \/ status b = "confirmed".

(** Two rows of the table that hold overlapping slots of one day. *)
Definition double_booked (rows : list Booking) : Prop :=
  exists (i j : nat) (b1 b2 : Booking),
    i <> j /\ rows !! i = Some b1 /\ rows !! j = Some b2 /\
    holds_slot b1 /\ holds_slot b2 /\
    dt_date (appointment_date b1) = dt_date (appointment_date b2) /\
    overlaps (booking_start b1) (booking_end b1) (booking_start b2) (booking_end b2).

(** The two rejections of the business hours check. *)
Definition outside_hours (e : HTTPException) : Prop :=
  e = ClosedOnDay \/ exists h d, e = OutsideOpenClose h d.

(** Calls of [create_booking] one after the other, each on the database the
    one before left; the answers in the order of the calls. *)
Fixpoint admit_all (cfg : Settings) (db : Session) (calls : list (Env * BookingRequest))
    : Session * list (result BookingResponse) :=
  match calls with
  | [] => (db, [])
  | (env, r) :: rest =>
    let out := create_booking cfg env db r in
    let '(db', outs) := admit_all cfg (session_after db out) rest in
    (db', (c ← out; mret (response c)) :: outs)
  end.

(** The same call with another draw of [uuid.uuid4()]. *)
Definition with_uuid (env : Env) (u : Z) : Env :=
  {| now := now env; utcnow := utcnow env; utcnow_on_update := utcnow_on_update env;
     uuid4 := u; calendar_event_id := calendar_event_id env |}.

(** A character of a confirmation code: a digit or a letter. *)
Definition is_alnum (c : ascii) : bool :=
  let n := nat_of_ascii c in
  (Nat.leb 48 n && Nat.leb n 57) || (Nat.leb 65 n && Nat.leb n 90)
  || (Nat.leb 97 n && Nat.leb n 122).

(** Consecutive members of a list differ by [g]. *)
Definition spaced_by (g : Z) (l : list Z) : Prop :=
  forall (i : nat) (a b : Z), l !! i = Some a -> l !! S i = Some b -> b = a + g.

(** The start times [start], [start + step], ... of [n] slots. *)
Fixpoint walk (n : nat) (start step : Z) : list Z :=
  match n with
  | O => []
  | S n' => start :: walk n' (start + step) step
  end.

(** The times a booking marks: every quarter of an hour from its start,
    before its end. *)
Definition marks (b : Booking) (x : Z) : Prop :=
  booking_start b <= x < booking_end b /\ (x - booking_start b) mod 15 = 0.

(** A booking the marking loop handles within the day: it starts at a time
    of day and ends by 23:45. *)
Definition within_day (b : Booking) : Prop :=
  0 <= booking_start b /\ 0 <= booking_end b <= 1425.

(** A slot is free of the booked times when none of them is a quarter of an
    hour step into it. *)
Definition free (booked_times : gset Z) (start duration : Z) : Prop :=
  forall x, x ∈ booked_times -> start <= x < start + duration -> (x - start) mod 15 <> 0.

(** The number of slots of length [duration] on the walk from [start] in
    steps of [step] that end by [end_time]. *)
Definition slot_count (start end_time duration step : Z) : nat :=
  if start + duration <=? end_time
  then S (Z.to_nat ((end_time - duration - start) / step))
  else O.

End Ledger.
Export Ledger.

(** ** The inputs of the examples: Monday 2030-01-07, asked for on the
    Saturday before at noon. *)
Module Fixtures.

Definition monday : Z := 741084.

Definition saturday_noon : Env :=
  {| now := mk_datetime 741082 720;
     utcnow := mk_datetime 741082 1020;
     utcnow_on_update := mk_datetime 741082 1020;
     uuid4 := 0x1234abcd5e6f4a7b8c9d0e1f2a3b4c5d;
     calendar_event_id := None |}.

(** A request of Ada for a Swedish Massage (60 minutes) on that Monday at
    minute [t] of the day. *)
Definition massage_at (t : Z) : BookingRequest :=
  {| req_client_name := "Ada";
     req_client_email := "ada@example.org";
     req_client_phone := "555-0100";
     req_service_name := "Swedish Massage";
     req_appointment_date := Some monday;
     req_appointment_time := Some t;
     req_special_requests := None |}.

(** The database after one admitted request for minute [t]. *)
Definition booked_at (t : Z) : Session :=
  session_after init_db (create_booking settings saturday_noon init_db (massage_at t)).

Definition swedish_massage : Service :=
  mk_service 1 "Swedish Massage"
    "Relaxing full-body massage using long, flowing strokes" 60 80 "massage" true.

(** A catalogue whose only service lasts fifteen hours. *)
Definition long_day_db : Session :=
  {| services := [ mk_service 1 "Retreat" "A day at the spa" 900 500 "wellness" true ];
     bookings := [] |}.

End Fixtures.
Export Fixtures.

(** ** api/routes/services.py *)
Module Services.

(** [a <= b] on texts, as [ORDER BY] compares them *)
Definition text_leb (a b : string) : bool :=
  match String.compare a b with
  | Gt => false
  | _ => true
  end.

(** The order of [order_by(Service.category, Service.name)]. *)
Definition by_category_name (s1 s2 : Service) : bool :=
  match String.compare (category s1) (category s2) with
  | Lt => true
  | Gt => false
  | Eq => text_leb (name s1) (name s2)
  end.

Fixpoint insert_ordered (x : Service) (rows : list Service) : list Service :=
  match rows with
  | [] => [x]
  | y :: rows' =>
    if by_category_name x y then x :: rows else y :: insert_ordered x rows'
  end.

(** [.order_by(Service.category, Service.name).all()]; rows with the same
    category and name, which the unique names of the table exclude, stay in
    table order. *)
Definition order_by_category_name (rows : list Service) : list Service :=
  fold_right insert_ordered [] rows.

(** [db.query(Service).filter(Service.is_active == True)] *)
Definition active_services (db : Session) : list Service :=
  List.filter is_active (services db).

(** GET /services.  A [ServiceResponse] has the fields of the row, so the
    row stands for it.  [if category:] holds for a text that is given and
    not empty. *)
Definition get_services (db : Session) (category : option string) : list Service :=
  let query := active_services db in
  let query :=
    match category with
    | Some c =>
      if bool_decide (c = "") then query
      else List.filter (fun s => bool_decide (Database.category s = c)) query
    | None => query
    end in
  order_by_category_name query.

(** [categories[service.category].append(...)], the key created at the end
    of the dict when it is new. *)
Fixpoint add_to_category (categories : list (string * list Service)) (s : Service)
    : list (string * list Service) :=
  match categories with
  | [] => [(category s, [s])]
  | (c, l) :: rest =>
    if bool_decide (c = category s)
    then (c, (l ++ [s])%list) :: rest
    else (c, l) :: add_to_category rest s
  end.

(** GET /services/categories: the dict [categories] as its items in
    insertion order. *)
Definition get_services_by_category (db : Session) : list (string * list Service) :=
  fold_left add_to_category (order_by_category_name (active_services db)) [].

(** GET /services/{service_id} *)
Definition get_service (db : Session) (service_id : Z) : result Service :=
  first_or
    (List.filter (fun s => (Database.service_id s =? service_id) && is_active s) (services db))
    ServiceNotFound.

End Services.
Export Services.

(** ** core/database.py: [init_db] *)
Module Startup.

Definition next_service_id (rows : list Service) : Z :=
  1 + fold_right Z.max 0 (map service_id rows).

(** [db.query(Service).filter(Service.name == n).first()] *)
Definition existing_service (db : Session) (n : string) : option Service :=
  head (List.filter (fun s => bool_decide (name s = n)) (services db)).

(** The [for] loop over [default_services]: the entries it hands to
    [db.add], in order.  The session is made with [autoflush=False], so
    each query reads the rows of the table and none of the entries added
    before it. *)
Definition pending_services (db : Session) : list Service :=
  List.filter (fun service_data => negb (found (existing_service db (name service_data))))
              default_services.

(** [db.commit()]: the added entries become rows, each with the next key
    and the column default [is_active = True]. *)
Fixpoint insert_services (rows pending : list Service) : list Service :=
  match pending with
  | [] => rows
  | d :: rest =>
    insert_services
      (rows ++ [ {| service_id := next_service_id rows;
                    name := name d;
                    description := description d;
                    duration := duration d;
                    price := price d;
                    category := category d;
                    is_active := true |} ])%list
      rest
  end.

Definition init_db (db : Session) : Session :=
  {| services := insert_services (services db) (pending_services db);
     bookings := bookings db |}.

End Startup.

(** ** What the ledger keeps *)
Module Invariants.

(** What [create_booking] writes into a row: the status, the start as the
    minute of the appointment, a day with hours that the start lies in,
    and the name, length and price of an active service. *)
Definition admitted_shape (cfg : Settings) (catalogue : list Service) (b : Booking) : Prop :=
  status b = "confirmed" /\
  appointment_time b = dt_minute (appointment_date b) /\
  (exists hours,
     business_hours cfg !! day_name (dt_date (appointment_date b)) = Some hours /\
     open hours <= appointment_time b <= close hours) /\
  exists svc,
    In svc catalogue /\ is_active svc = true /\ name svc = service_name b /\
    duration svc = service_duration b /\ price svc = total_price b.

(** The start of a row as [create_booking] writes it: the text
    [appointment_time] is the time of day of the stored datetime. *)
Definition start_as_stored (b : Booking) : Prop :=
  appointment_time b = dt_minute (appointment_date b).

(** The eight hexadecimal digits of a UUID that the confirmation code is
    cut from: bits 96 to 127. *)
Definition top_digits (u : Z) : Z := (u / 16 ^ 24) mod 16 ^ 8.

End Invariants.
Export Invariants.

(** Settings with hours on Mondays only, until 23:59. *)
Module MoreFixtures.

Definition late_monday : Settings :=
  {| spa_manager_email := "manager@yourspa.com";
     business_hours := {[ "monday" := mk_hours 540 1439 ]};
     appointment_duration := 60;
     buffer_time := 15 |}.

Definition tuesday : Z := 741085.

(** A catalogue where one default service was taken out of the offer. *)
Definition retired_facial_db : Session :=
  {| services := [ mk_service 1 "Classic Facial" "An older facial" 50 55 "facial" false;
                   mk_service 2 "Sauna" "Finnish sauna" 30 25 "wellness" true ];
     bookings := [] |}.

End MoreFixtures.
Export MoreFixtures.

(** * Properties *)

(** ** How [create_booking] decides *)

Lemma first_or_head {A : Type} (rows : list A) (e : HTTPException) (a : A) :
  first_or rows e = Ok a <-> head rows = Some a.
Proof. destruct rows; simpl; split; intros H; inversion H; reflexivity. Qed.

Lemma strptime_Raise r e : strptime r = Raise e -> e = InvalidDateTimeFormat.
Proof.
  unfold strptime. destruct (req_appointment_date r), (req_appointment_time r);
    intros H; inversion H; reflexivity.
Qed.

(** One check of a route: split on what it tested and drop the branch that
    raises. *)
Ltac route_case t pat :=
  destruct t as pat eqn:?;
  cbn [first_or raise_if head found mbind result_bind mret result_ret];
  try (let H := fresh in intros H; discriminate H).

(** A call returns exactly when the service is found, the texts parse, the
    time is ahead, the day has hours, the start lies between open and
    close, and the conflict query selects no row; it then returns what
    [book] builds. *)
Lemma create_booking_Ok cfg env db r c :
  create_booking cfg env db r = Ok c <->
  exists svc dt hours,
    head (active_services_named db (req_service_name r)) = Some svc /\
    strptime r = Ok dt /\
    datetime_leb dt (now env) = false /\
    business_hours cfg !! day_name (dt_date dt) = Some hours /\
    open hours <= dt_minute dt <= close hours /\
    conflicting_bookings db dt (datetime_plus dt (duration svc)) = [] /\
    c = book cfg env db r svc dt.
Proof.
  unfold create_booking. split.
  - route_case (active_services_named db (req_service_name r)) ipattern:([|svc rest]).
    route_case (strptime r) ipattern:([dt|]).
    route_case (datetime_leb dt (now env)) ipattern:([|]).
    route_case (business_hours cfg !! day_name (dt_date dt)) ipattern:([hours|]).
    route_case ((dt_minute dt <? open hours) || (close hours <? dt_minute dt)) ipattern:([|]).
    route_case (conflicting_bookings db dt (datetime_plus dt (duration svc))) ipattern:([|b l]).
    intros H. inversion H. exists svc, dt, hours.
    match goal with Ho : orb _ _ = false |- _ => apply orb_false_iff in Ho as [Ho1 Ho2] end.
    repeat split; try reflexivity; try assumption; lia.
  - intros (svc & dt & hours & Hs & Hp & Hf & Hh & Ho & Hc & ->).
    destruct (active_services_named db (req_service_name r)) as [|svc' rest];
      [discriminate Hs|]. inversion Hs; subst svc'.
    cbn [first_or mbind result_bind]. rewrite Hp. cbn [mbind result_bind].
    rewrite Hf. cbn [raise_if mbind result_bind]. rewrite Hh.
    replace ((dt_minute dt <? open hours) || (close hours <? dt_minute dt)) with false
      by (symmetry; apply orb_false_iff; split; lia).
    cbn [raise_if mbind result_bind]. rewrite Hc. reflexivity.
Qed.

(** A call answers "Time slot is already booked" exactly when the checks
    before pass and the conflict query selects a row. *)
Lemma create_booking_conflict cfg env db r :
  create_booking cfg env db r = Raise SlotAlreadyBooked <->
  exists svc dt hours,
    head (active_services_named db (req_service_name r)) = Some svc /\
    strptime r = Ok dt /\
    datetime_leb dt (now env) = false /\
    business_hours cfg !! day_name (dt_date dt) = Some hours /\
    open hours <= dt_minute dt <= close hours /\
    conflicting_bookings db dt (datetime_plus dt (duration svc)) <> [].
Proof.
  unfold create_booking. split.
  - route_case (active_services_named db (req_service_name r)) ipattern:([|svc rest]).
    route_case (strptime r) ipattern:([dt|]).
    2:{ intros H. inversion H; subst.
      match goal with Hp : strptime r = _ |- _ => apply strptime_Raise in Hp; discriminate Hp end. }
    route_case (datetime_leb dt (now env)) ipattern:([|]).
    route_case (business_hours cfg !! day_name (dt_date dt)) ipattern:([hours|]).
    route_case ((dt_minute dt <? open hours) || (close hours <? dt_minute dt)) ipattern:([|]).
    route_case (conflicting_bookings db dt (datetime_plus dt (duration svc))) ipattern:([|b l]).
    intros _. exists svc, dt, hours.
    match goal with Ho : orb _ _ = false |- _ => apply orb_false_iff in Ho as [Ho1 Ho2] end.
    repeat split; try reflexivity; try assumption; try lia. congruence.
  - intros (svc & dt & hours & Hs & Hp & Hf & Hh & Ho & Hc).
    destruct (active_services_named db (req_service_name r)) as [|svc' rest];
      [discriminate Hs|]. inversion Hs; subst svc'.
    cbn [first_or mbind result_bind]. rewrite Hp. cbn [mbind result_bind].
    rewrite Hf. cbn [raise_if mbind result_bind]. rewrite Hh.
    replace ((dt_minute dt <? open hours) || (close hours <? dt_minute dt)) with false
      by (symmetry; apply orb_false_iff; split; lia).
    cbn [raise_if mbind result_bind].
    destruct (conflicting_bookings db dt (datetime_plus dt (duration svc))); [congruence|].
    reflexivity.
Qed.

(** A call is rejected by the business hours check exactly when the checks
    before pass and the day has no hours or the start is before the opening
    or after the closing time.  The length of the service plays no part. *)
Lemma create_booking_outside_hours cfg env db r :
  (exists e, create_booking cfg env db r = Raise e /\ outside_hours e) <->
  exists svc dt,
    head (active_services_named db (req_service_name r)) = Some svc /\
    strptime r = Ok dt /\
    datetime_leb dt (now env) = false /\
    (business_hours cfg !! day_name (dt_date dt) = None \/
     exists hours, business_hours cfg !! day_name (dt_date dt) = Some hours /\
                   (dt_minute dt < open hours \/ close hours < dt_minute dt)).
Proof.
  unfold create_booking, outside_hours. split.
  - intros (e & H & He). revert H.
    destruct (active_services_named db (req_service_name r)) as [|svc rest] eqn:Hs;
      cbn [first_or mbind result_bind].
    { intros H. destruct He as [->|(h & d & ->)]; discriminate H. }
    destruct (strptime r) as [dt|e'] eqn:Hp; cbn [mbind result_bind].
    2:{ apply strptime_Raise in Hp as ->.
        intros H. destruct He as [->|(h & d & ->)]; discriminate H. }
    destruct (datetime_leb dt (now env)) eqn:Hf; cbn [raise_if mbind result_bind].
    { intros H. destruct He as [->|(h & d & ->)]; discriminate H. }
    destruct (business_hours cfg !! day_name (dt_date dt)) as [hours|] eqn:Hh.
    2:{ intros _. exists svc, dt. repeat split; auto. }
    destruct ((dt_minute dt <? open hours) || (close hours <? dt_minute dt)) eqn:Ho;
      cbn [raise_if mbind result_bind].
    { intros _. exists svc, dt. repeat split; auto. right. exists hours. split; auto.
      apply orb_true_iff in Ho. lia. }
    destruct (found _); cbn [raise_if mbind result_bind mret result_ret];
      intros H; destruct He as [->|(h & d & ->)]; discriminate H.
  - intros (svc & dt & Hs & Hp & Hf & Hh).
    destruct (active_services_named db (req_service_name r)) as [|svc' rest];
      [discriminate Hs|]. inversion Hs; subst svc'.
    cbn [first_or mbind result_bind]. rewrite Hp. cbn [mbind result_bind].
    rewrite Hf. cbn [raise_if mbind result_bind].
    destruct Hh as [Hh|(hours & Hh & Ho)]; rewrite Hh.
    + exists ClosedOnDay. auto.
    + replace ((dt_minute dt <? open hours) || (close hours <? dt_minute dt)) with true
        by (symmetry; apply orb_true_iff; lia).
      cbn [raise_if mbind result_bind]. eexists. split; [reflexivity|]. right. eauto.
Qed.

Lemma datetime_eqb_eq a b : datetime_eqb a b = true <-> a = b.
Proof.
  unfold datetime_eqb. rewrite andb_true_iff, !Z.eqb_eq. destruct a, b; cbn. split.
  - intros (-> & ->). reflexivity.
  - intros H. inversion H. auto.
Qed.

(** The rows the conflict query selects are the confirmed bookings stored
    with the requested day at 00:00 whose start time lies between the
    requested start and end, both ends included. *)
Lemma conflicting_bookings_spec db dt end_time b :
  In b (conflicting_bookings db dt end_time) <->
  In b (bookings db) /\ appointment_date b = at_midnight (dt_date dt) /\
  status b = "confirmed" /\
  dt_minute dt <= appointment_time b <= dt_minute end_time.
Proof.
  unfold conflicting_bookings, between. rewrite filter_In.
  rewrite !andb_true_iff, bool_decide_eq_true, datetime_eqb_eq, !Z.leb_le. tauto.
Qed.

(** On a ledger whose rows start as [create_booking] stores them, the
    conflict query selects nothing for a request after 00:00: a row it
    selects is stored at 00:00, and so starts before the request. *)
Lemma no_conflict_after_midnight db dt end_time :
  Forall start_as_stored (bookings db) -> 0 < dt_minute dt ->
  conflicting_bookings db dt end_time = [].
Proof.
  intros Hall Hpos.
  destruct (conflicting_bookings db dt end_time) as [|b l] eqn:E; [reflexivity|].
  exfalso. assert (Hb : In b (b :: l)) by (left; reflexivity).
  rewrite <- E in Hb. apply conflicting_bookings_spec in Hb as (Hin & Hdate & _ & Hbetween).
  rewrite List.Forall_forall in Hall. specialize (Hall b Hin).
  unfold start_as_stored in Hall. rewrite Hdate in Hall. cbn in Hall. lia.
Qed.

(** ** Admission against a booking that is under way *)

(** Whatever the day filter selects, a booking that started before the
    requested start is not among the rows of the conflict query. *)
Lemma conflict_query_misses_running_booking db dt end_time b :
  appointment_time b < dt_minute dt -> ~ In b (conflicting_bookings db dt end_time).
Proof.
  intros Hlt Hin. apply conflicting_bookings_spec in Hin as (_ & _ & _ & Hb). lia.
Qed.

(** C1, at an input where the code departs from it: with the confirmed
    booking 10:00-11:00 in the ledger, the request for 10:30-11:30 of the
    same day overlaps it under the half-open test, and [create_booking]
    returns a new booking instead of "Time slot is already booked". *)
Theorem create_booking_admits_into_running_booking :
  exists b c,
    bookings (booked_at 600) = [b] /\
    status b = "confirmed" /\ on_day monday b /\
    booking_start b = 600 /\ booking_end b = 660 /\
    overlaps 630 (630 + 60) (booking_start b) (booking_end b) /\
    create_booking settings saturday_noon (booked_at 600) (massage_at 630) = Ok c /\
    length (bookings (session c)) = 2%nat.
Proof.
  eexists. eexists.
  split; [vm_compute; reflexivity|].
  split; [reflexivity|]. split; [reflexivity|].
  split; [reflexivity|]. split; [reflexivity|].
  split; [unfold overlaps; vm_compute; split; reflexivity|].
  split; [vm_compute; reflexivity|].
  reflexivity.
Qed.



(** C3, at an input where the code departs from it: on a Monday, open
    09:00-20:00, the request for a 60 minute service at 19:30 ends at
    20:30, after the closing time, and [create_booking] returns a booking
    for it: no rejection, so none for the business hours.  The slot
    listing of that day does not offer 19:30. *)
Theorem create_booking_admits_past_closing :
  exists svc c b slots,
    business_hours settings !! day_name monday = Some (mk_hours 540 1200) /\
    head (active_services_named init_db "Swedish Massage") = Some svc /\
    duration svc = 60 /\ 1170 + duration svc > 1200 /\
    create_booking settings saturday_noon init_db (massage_at 1170) = Ok c /\
    bookings (session c) = [b] /\ booking_start b = 1170 /\ booking_end b = 1230 /\
    get_available_slots 1440 settings init_db (Some monday) "Swedish Massage"
      = Some (Ok slots) /\
    ~ In 1170 slots.
Proof.
  eexists. eexists. eexists. eexists.
  split; [vm_compute; reflexivity|].
  split; [vm_compute; reflexivity|].
  split; [reflexivity|]. split; [reflexivity|].
  split; [vm_compute; reflexivity|].
  split; [reflexivity|]. split; [reflexivity|]. split; [reflexivity|].
  split; [vm_compute; reflexivity|].
  cbn [In]. intros H. repeat (destruct H as [H|H]; [discriminate H|]). exact H.
Qed.

(** ** What an admitted booking leaves in the ledger *)

Lemma id_below_next_id rows b : In b rows -> id b < next_id rows.
Proof.
  unfold next_id. induction rows as [|b' rows IH]; cbn [In map fold_right].
  - tauto.
  - intros [->|Hin]; [lia|]. specialize (IH Hin). lia.
Qed.

(** No earlier row has the key of the row [create_booking] inserts. *)
Lemma filter_next_id rows :
  List.filter (fun b => id b =? next_id rows) rows = [].
Proof.
  assert (H : forall l, (forall b, In b l -> id b < next_id rows) ->
                        List.filter (fun b => id b =? next_id rows) l = []).
  { induction l as [|b l IH]; intros Hl; cbn [List.filter]; [reflexivity|].
    destruct (Z.eqb_spec (id b) (next_id rows)) as [E|_].
    - specialize (Hl b (or_introl eq_refl)). lia.
    - apply IH. intros b' Hb'. apply Hl. right. exact Hb'. }
  apply H. intros b. apply id_below_next_id.
Qed.

(** The rows already in the ledger stay as they are: an admission appends
    one row and rewrites none. *)
Lemma create_booking_appends cfg env db r c :
  create_booking cfg env db r = Ok c ->
  exists svc dt,
    head (active_services_named db (req_service_name r)) = Some svc /\
    strptime r = Ok dt /\
    services (session c) = services db /\
    bookings (session c) = (bookings db ++ [new_booking env db r svc dt])%list /\
    response c = response (book cfg env db r svc dt).
Proof.
  intros H. apply create_booking_Ok in H as (svc & dt & hours & Hs & Hp & _ & _ & _ & _ & ->).
  exists svc, dt. repeat split; assumption.
Qed.

(** *** The confirmation code *)

Lemma upper_hex_digit_alnum d :
  0 <= d < 16 -> is_alnum (upper_ascii (hex_digit d)) = true.
Proof.
  intros Hd.
  assert (E : d = 0 \/ d = 1 \/ d = 2 \/ d = 3 \/ d = 4 \/ d = 5 \/ d = 6 \/ d = 7 \/
              d = 8 \/ d = 9 \/ d = 10 \/ d = 11 \/ d = 12 \/ d = 13 \/ d = 14 \/ d = 15)
    by lia.
  repeat (destruct E as [->|E]; [reflexivity|]). subst d. reflexivity.
Qed.

(** Whatever [uuid4] draws, the code is eight characters, each a digit or a
    capital letter: the first eight hexadecimal digits of the UUID. *)
Lemma new_confirmation_code_shape env :
  String.length (new_confirmation_code env) = 8%nat /\
  forallb is_alnum (list_ascii_of_string (new_confirmation_code env)) = true.
Proof.
  unfold new_confirmation_code, str_uuid.
  cbn [hex firstn skipn app string_of_list_ascii String.substring upper
       String.length list_ascii_of_string forallb].
  split; [reflexivity|].
  rewrite !upper_hex_digit_alnum by (apply Z.mod_pos_bound; lia).
  reflexivity.
Qed.

(** C10: the confirmation code is not stored.  A call that returns leaves
    the same database whatever UUID it draws, the code of the response
    being the only thing that follows the draw; and [get_booking] on the
    key of the new row answers with nine fields of that row, none of them
    the code. *)
Theorem confirmation_code_not_stored cfg env db r c :
  create_booking cfg env db r = Ok c ->
  exists b,
    bookings (session c) = (bookings db ++ [b])%list /\
    get_booking (session c) (booking_id (response c))
      = Ok {| details_id := id b;
              details_client_name := req_client_name r;
              details_client_email := req_client_email r;
              details_service_name := service_name b;
              details_appointment_date := appointment_datetime (response c);
              details_appointment_time := dt_minute (appointment_datetime (response c));
              details_total_price := total_price b;
              details_status := "confirmed";
              details_created_at := utcnow env |} /\
    forall u, exists c',
      create_booking cfg (with_uuid env u) db r = Ok c' /\
      session c' = session c /\
      confirmation_code (response c') = new_confirmation_code (with_uuid env u) /\
      get_booking (session c') (booking_id (response c'))
        = get_booking (session c) (booking_id (response c)).
Proof.
  intros H.
  pose proof H as H0.
  apply create_booking_Ok in H0 as (svc & dt & hours & Hs & Hp & Hf & Hh & Ho & Hc & ->).
  exists (new_booking env db r svc dt).
  split; [reflexivity|]. split.
  - unfold get_booking.
    cbn [book response session bookings booking_id new_booking id appointment_datetime].
    rewrite List.filter_app, filter_next_id. cbn [List.filter app id].
    rewrite Z.eqb_refl. reflexivity.
  - intros u. exists (book cfg (with_uuid env u) db r svc dt).
    split; [|repeat split].
    apply create_booking_Ok. exists svc, dt, hours. repeat split; try assumption; apply Ho.
Qed.

(** At the first request of the examples, with two draws of the UUID: two
    codes, one database. *)
Lemma confirmation_code_not_stored_witness :
  exists c c',
    create_booking settings saturday_noon init_db (massage_at 600) = Ok c /\
    create_booking settings (with_uuid saturday_noon 7) init_db (massage_at 600) = Ok c' /\
    session c' = session c /\
    confirmation_code (response c) = "1234ABCD" /\
    confirmation_code (response c') = "00000000".
Proof.
  pose (c := book settings saturday_noon init_db (massage_at 600)
                  (mk_service 1 "Swedish Massage"
                     "Relaxing full-body massage using long, flowing strokes"
                     60 80 "massage" true)
                  (mk_datetime monday 600)).
  assert (H : create_booking settings saturday_noon init_db (massage_at 600) = Ok c)
    by (vm_compute; reflexivity).
  destruct (confirmation_code_not_stored settings saturday_noon init_db (massage_at 600) c H)
    as (b & _ & _ & Hu).
  destruct (Hu 7) as (c' & Hc' & Hsess & Hcode & _).
  exists c, c'. split; [exact H|]. split; [exact Hc'|]. split; [exact Hsess|].
  split; [vm_compute; reflexivity|]. rewrite Hcode. vm_compute. reflexivity.
Defined.

(** ** Admissions one after the other *)

(** C6, at an input where the code departs from it: from the empty ledger,
    the request for 10:00-11:00 and then the request for 10:30-11:30 of the
    same Monday are both admitted, and the ledger holds two confirmed
    bookings of that day whose intervals overlap. *)
Theorem sequential_admits_double_book :
  exists db r1 r2,
    admit_all settings init_db
      [ (saturday_noon, massage_at 600);
        (with_uuid saturday_noon 0xfeedc0de00000000000000000000babe, massage_at 630) ]
      = (db, [Ok r1; Ok r2]) /\
    resp_status r1 = "confirmed" /\ resp_status r2 = "confirmed" /\
    double_booked (bookings db).
Proof.
  eexists. eexists. eexists.
  split; [vm_compute; reflexivity|].
  split; [reflexivity|]. split; [reflexivity|].
  exists 0%nat, 1%nat. eexists. eexists.
  split; [discriminate|].
  split; [reflexivity|]. split; [reflexivity|].
  split; [right; reflexivity|]. split; [right; reflexivity|].
  split; [reflexivity|].
  unfold overlaps. vm_compute. split; reflexivity.
Qed.

(** C9, at an input where the code departs from it.  The requests for
    10:00-11:00, 10:20-11:20 and 10:40-11:40 of one Monday overlap each
    other.  Served in this order, one of the orders in which requests sent
    at once can reach the ledger, all three are admitted and none is
    answered "Time slot is already booked"; the ledger ends with three
    confirmed bookings of that day, overlapping. *)
Theorem overlapping_admits_all_succeed :
  exists db r1 r2 r3,
    overlaps 600 (600 + 60) 620 (620 + 60) /\
    overlaps 620 (620 + 60) 640 (640 + 60) /\
    overlaps 600 (600 + 60) 640 (640 + 60) /\
    admit_all settings init_db
      [ (with_uuid saturday_noon 1, massage_at 600);
        (with_uuid saturday_noon 2, massage_at 620);
        (with_uuid saturday_noon 3, massage_at 640) ]
      = (db, [Ok r1; Ok r2; Ok r3]) /\
    length (bookings db) = 3%nat /\
    Forall (fun b => status b = "confirmed" /\ on_day monday b) (bookings db) /\
    double_booked (bookings db).
Proof.
  eexists. eexists. eexists. eexists.
  split; [unfold overlaps; lia|]. split; [unfold overlaps; lia|].
  split; [unfold overlaps; lia|].
  split; [vm_compute; reflexivity|].
  split; [reflexivity|].
  split; [repeat constructor|].
  exists 0%nat, 2%nat. eexists. eexists.
  split; [discriminate|].
  split; [reflexivity|]. split; [reflexivity|].
  split; [right; reflexivity|]. split; [right; reflexivity|].
  split; [reflexivity|].
  unfold overlaps. vm_compute. split; reflexivity.
Qed.

(** ** The loops of the slot listing *)

Lemma time_plus_small t m : 0 <= t + m < 1440 -> time_plus t m = t + m.
Proof. intros H. unfold time_plus. apply Z.mod_small. exact H. Qed.

(** The inner loop over one booking leaves when the booking ends by 23:45,
    and has then added the times [current_time], [current_time + 15], ...
    before [booking_end]. *)
Lemma add_booking_times_spec fuel :
  forall current_time booking_end (booked_times : gset Z),
    0 <= current_time -> booking_end <= 1425 ->
    (Z.to_nat (booking_end - current_time) < fuel)%nat ->
    exists booked_times',
      add_booking_times fuel current_time booking_end booked_times = Some booked_times' /\
      forall x, x ∈ booked_times' <->
                x ∈ booked_times \/
                (current_time <= x < booking_end /\ (x - current_time) mod 15 = 0).
Proof.
  induction fuel as [|fuel IH]; intros cur e S Hcur He Hfuel; [lia|].
  cbn [add_booking_times]. destruct (Z.ltb_spec cur e) as [Hlt|Hge].
  - rewrite time_plus_small by lia.
    destruct (IH (cur + 15) e ({[cur]} ∪ S)) as (S' & HS' & Hin); [lia|lia|lia|].
    exists S'. split; [exact HS'|]. intros x. rewrite Hin, elem_of_union, elem_of_singleton.
    split.
    + intros [[->|Hx]|[Hr Hm]].
      * right. split; [lia|]. rewrite Z.sub_diag. reflexivity.
      * left. exact Hx.
      * right. split; [lia|]. Z.div_mod_to_equations. lia.
    + intros [Hx|[Hr Hm]]; [left; right; exact Hx|].
      destruct (Z.eq_dec x cur) as [->|Hne]; [left; left; reflexivity|].
      right. Z.div_mod_to_equations. lia.
  - exists S. split; [reflexivity|]. intros x. split; [auto|]. intros [Hx|[Hr _]]; [exact Hx|lia].
Qed.

Lemma collect_booked_times_spec fuel existing_bookings :
  forall booked_times : gset Z,
    (1426 <= fuel)%nat -> Forall within_day existing_bookings ->
    exists booked_times',
      collect_booked_times fuel existing_bookings booked_times = Some booked_times' /\
      forall x, x ∈ booked_times' <->
                x ∈ booked_times \/ exists b, In b existing_bookings /\ marks b x.
Proof.
  induction existing_bookings as [|b l IH]; intros S Hfuel Hall.
  - exists S. split; [reflexivity|]. intros x. split; [auto|].
    intros [Hx|(b & [] & _)]. exact Hx.
  - inversion Hall as [|? ? Hb Hl]; subst. destruct Hb as (Hs & He).
    unfold booking_start, booking_end in Hs, He.
    cbn [collect_booked_times]. rewrite time_plus_small by lia.
    destruct (add_booking_times_spec fuel (appointment_time b)
                (appointment_time b + service_duration b) S) as (S1 & HS1 & Hin1);
      [lia|lia|lia|].
    rewrite HS1. cbn [mbind option_bind].
    destruct (IH S1 Hfuel Hl) as (S2 & HS2 & Hin2).
    exists S2. split; [exact HS2|]. intros x. rewrite Hin2, Hin1.
    unfold marks, booking_start, booking_end. cbn [In]. split.
    + intros [[Hx|Hm]|(b' & Hb' & Hm)]; [left; exact Hx|right..].
      * exists b. split; [left; reflexivity|exact Hm].
      * exists b'. split; [right; exact Hb'|exact Hm].
    + intros [Hx|(b' & [<-|Hb'] & Hm)]; [left; left; exact Hx|left; right; exact Hm|].
      right. exists b'. split; assumption.
Qed.

Lemma slot_is_available_spec fuel (booked_times : gset Z) :
  forall check_time slot_end,
    0 <= check_time -> slot_end <= 1425 ->
    (Z.to_nat (slot_end - check_time) < fuel)%nat ->
    exists is_available,
      slot_is_available fuel check_time slot_end booked_times = Some is_available /\
      (is_available = true <->
       forall x, x ∈ booked_times -> check_time <= x < slot_end ->
                 (x - check_time) mod 15 <> 0).
Proof.
  induction fuel as [|fuel IH]; intros c e Hc He Hfuel; [lia|].
  cbn [slot_is_available]. destruct (Z.ltb_spec c e) as [Hlt|Hge].
  - destruct (bool_decide (c ∈ booked_times)) eqn:Hin.
    + apply bool_decide_eq_true in Hin. exists false. split; [reflexivity|].
      split; [discriminate|]. intros H. exfalso.
      apply (H c Hin); [lia|]. rewrite Z.sub_diag. reflexivity.
    + apply bool_decide_eq_false in Hin. rewrite time_plus_small by lia.
      destruct (IH (c + 15) e) as (r & Hr & Hiff); [lia|lia|lia|].
      exists r. split; [exact Hr|]. rewrite Hiff. split.
      * intros H x Hx Hrange.
        destruct (Z.eq_dec x c) as [->|Hne]; [contradiction|].
        destruct (Z_lt_le_dec x (c + 15)) as [Hsmall|Hbig].
        -- rewrite Z.mod_small by lia. lia.
        -- specialize (H x Hx). Z.div_mod_to_equations. lia.
      * intros H x Hx Hrange. specialize (H x Hx). Z.div_mod_to_equations. lia.
  - exists true. split; [reflexivity|]. split; [|reflexivity]. intros _ x _ Hr. lia.
Qed.

(** The outer loop, under the conditions that keep every time of the walk
    within the day: it leaves, and has appended the starts on the walk
    whose slot ends by [end_time] and is free of the booked times. *)
Lemma generate_slots_spec cfg duration end_time (booked_times : gset Z) inner fuel :
  0 <= buffer_time cfg -> end_time + buffer_time cfg + 15 < 1440 ->
  0 <= duration -> end_time + duration < 1440 -> (1426 <= inner)%nat ->
  forall current_time available_slots,
    0 <= current_time ->
    (Z.to_nat (end_time + 1 - current_time) < fuel)%nat ->
    exists rest,
      generate_slots fuel inner cfg duration end_time booked_times
                     current_time available_slots
        = Some (available_slots ++ rest)%list /\
      forall t, In t rest <->
                (exists k, 0 <= k /\ t = current_time + k * (buffer_time cfg + 15)) /\
                t + duration <= end_time /\ free booked_times t duration.
Proof.
  intros Hbuf Hclose Hdur Hlen Hinner.
  induction fuel as [|fuel IH]; intros cur acc Hcur Hfuel; [lia|].
  cbn [generate_slots]. destruct (Z.leb_spec cur end_time) as [Hle|Hgt].
  - rewrite (time_plus_small cur duration) by lia.
    rewrite (time_plus_small cur (buffer_time cfg + 15)) by lia.
    destruct (IH (cur + (buffer_time cfg + 15))) with (available_slots := acc)
      as (rest0 & Hrest0 & Hin0); [lia|lia|].
    assert (Hgrid : forall t,
               (exists k, 0 <= k /\ t = cur + k * (buffer_time cfg + 15)) <->
               t = cur \/
               exists k, 0 <= k /\
                         t = cur + (buffer_time cfg + 15) + k * (buffer_time cfg + 15)).
    { intros t. split.
      - intros (k & Hk & ->). destruct (Z.eq_dec k 0) as [->|Hk0]; [left; lia|].
        right. exists (k - 1). split; [lia|]. ring.
      - intros [->|(k & Hk & ->)]; [exists 0; lia|]. exists (k + 1). split; [lia|]. ring. }
    destruct (Z.leb_spec (cur + duration) end_time) as [Hfit|Hlong].
    + destruct (slot_is_available_spec inner booked_times cur (cur + duration))
        as (r & Hr & Hiff); [lia|lia|lia|].
      rewrite Hr. cbn [mbind option_bind].
      destruct r.
      * destruct (IH (cur + (buffer_time cfg + 15)) (acc ++ [cur])%list)
          as (rest & Hrest & Hin); [lia|lia|].
        exists (cur :: rest). rewrite Hrest, <- app_assoc. split; [reflexivity|].
        intros t. cbn [In]. rewrite Hin, Hgrid. split.
        -- intros [<-|(Hk & Ht & Hfree)].
           ++ split; [left; reflexivity|]. split; [lia|]. unfold free. apply Hiff. reflexivity.
           ++ split; [right; exact Hk|]. split; assumption.
        -- intros ([->|Hk] & Ht & Hfree); [left; reflexivity|right].
           split; [exact Hk|]. split; assumption.
      * exists rest0. split; [exact Hrest0|]. intros t. rewrite Hin0, Hgrid. split.
        -- intros (Hk & Ht & Hfree). split; [right; exact Hk|]. split; assumption.
        -- intros ([->|Hk] & Ht & Hfree).
           ++ exfalso. assert (Hf : false = true) by (apply Hiff; exact Hfree).
              discriminate Hf.
           ++ split; [exact Hk|]. split; assumption.
    + cbn [mbind option_bind]. exists rest0. split; [exact Hrest0|].
      intros t. rewrite Hin0, Hgrid. split.
      * intros (Hk & Ht & Hfree). split; [right; exact Hk|]. split; assumption.
      * intros ([->|Hk] & Ht & Hfree); [lia|]. split; [exact Hk|]. split; assumption.
  - exists []. rewrite app_nil_r. split; [reflexivity|]. intros t. split; [intros []|].
    intros ((k & Hk & ->) & Ht & _). nia.
Qed.

(** ** The slot listing against the bookings of the day *)

(** The bookings the listing reads are the confirmed ones stored with the
    day at 00:00. *)
Lemma confirmed_on_spec db day b :
  In b (confirmed_on db day) <->
  In b (bookings db) /\ appointment_date b = at_midnight day /\ status b = "confirmed".
Proof.
  unfold confirmed_on. rewrite filter_In, andb_true_iff, datetime_eqb_eq, bool_decide_eq_true.
  tauto.
Qed.

(** A row stored with a time of day other than 00:00 is read by the
    listing of no day. *)
Lemma confirmed_on_app_stored db b day :
  dt_minute (appointment_date b) <> 0 ->
  confirmed_on {| services := services db; bookings := bookings db ++ [b] |} day
  = confirmed_on db day.
Proof.
  intros Hm. unfold confirmed_on. cbn [bookings]. rewrite List.filter_app. cbn [List.filter].
  replace (datetime_eqb (appointment_date b) (at_midnight day)) with false;
    [cbn; apply app_nil_r|].
  symmetry. apply not_true_iff_false. intros H. apply datetime_eqb_eq in H.
  rewrite H in Hm. cbn in Hm. congruence.
Qed.

(** C4, at an input where the code departs from it: with the confirmed
    booking 10:00-11:00 of a Monday in the ledger, the slots 10:00-11:00
    and 10:30-11:30 of a 60 minute service overlap it under the half-open
    test, and the listing of that Monday returns both start times.  The
    listing reads the bookings stored with the day at 00:00, and the booking
    is stored with its own time of day. *)
Theorem listing_offers_booked_slot :
  exists b slots,
    bookings (booked_at 600) = [b] /\
    status b = "confirmed" /\ on_day monday b /\
    booking_start b = 600 /\ booking_end b = 660 /\
    overlaps 600 (600 + 60) (booking_start b) (booking_end b) /\
    overlaps 630 (630 + 60) (booking_start b) (booking_end b) /\
    get_available_slots 1440 settings (booked_at 600) (Some monday) "Swedish Massage"
      = Some (Ok slots) /\
    In 600 slots /\ In 630 slots.
Proof.
  eexists. eexists.
  split; [vm_compute; reflexivity|].
  split; [reflexivity|]. split; [reflexivity|].
  split; [reflexivity|]. split; [reflexivity|].
  split; [unfold overlaps; vm_compute; split; reflexivity|].
  split; [unfold overlaps; vm_compute; split; reflexivity|].
  split; [vm_compute; reflexivity|].
  split; cbn; tauto.
Qed.

(** ** The slot listing of a day without confirmed bookings *)

Lemma slot_is_available_unbooked fuel check_time slot_end :
  0 <= check_time -> slot_end <= 1425 ->
  (Z.to_nat (slot_end - check_time) < fuel)%nat ->
  slot_is_available fuel check_time slot_end ∅ = Some true.
Proof.
  intros Hc He Hfuel.
  destruct (slot_is_available_spec fuel ∅ check_time slot_end Hc He Hfuel) as (r & Hr & Hiff).
  rewrite Hr. f_equal. apply Hiff. intros x Hx. apply not_elem_of_empty in Hx. contradiction.
Qed.

Lemma slot_count_fits start end_time duration step :
  0 < step -> start + duration <= end_time ->
  slot_count start end_time duration step
    = S (slot_count (start + step) end_time duration step).
Proof.
  intros Hstep Hfit. unfold slot_count.
  destruct (Z.leb_spec (start + duration) end_time) as [_|]; [|lia].
  f_equal. destruct (Z.leb_spec (start + step + duration) end_time) as [Hnext|Hlast].
  - replace (end_time - duration - (start + step))
      with (end_time - duration - start + (-1) * step) by ring.
    rewrite Z.div_add by lia.
    assert (1 <= (end_time - duration - start) / step)
      by (apply Z.div_le_lower_bound; lia).
    lia.
  - rewrite Z.div_small by lia. reflexivity.
Qed.

Lemma slot_count_too_long start end_time duration step :
  end_time < start + duration -> slot_count start end_time duration step = O.
Proof.
  intros H. unfold slot_count. destruct (Z.leb_spec (start + duration) end_time); [lia|].
  reflexivity.
Qed.

(** With no booked time the outer loop appends the whole walk. *)
Lemma generate_slots_unbooked cfg duration end_time inner fuel :
  0 <= buffer_time cfg -> end_time + buffer_time cfg + 15 < 1440 ->
  0 <= duration -> end_time + duration < 1440 -> (1426 <= inner)%nat ->
  forall current_time available_slots,
    0 <= current_time ->
    (Z.to_nat (end_time + 1 - current_time) < fuel)%nat ->
    generate_slots fuel inner cfg duration end_time ∅ current_time available_slots
      = Some (available_slots
                ++ walk (slot_count current_time end_time duration (buffer_time cfg + 15))
                        current_time (buffer_time cfg + 15))%list.
Proof.
  intros Hbuf Hclose Hdur Hlen Hinner.
  induction fuel as [|fuel IH]; intros cur acc Hcur Hfuel; [lia|].
  cbn [generate_slots]. destruct (Z.leb_spec cur end_time) as [Hle|Hgt].
  - rewrite (time_plus_small cur duration) by lia.
    rewrite (time_plus_small cur (buffer_time cfg + 15)) by lia.
    destruct (Z.leb_spec (cur + duration) end_time) as [Hfit|Hlong].
    + rewrite slot_is_available_unbooked by lia. cbn [mbind option_bind].
      rewrite IH by lia. rewrite (slot_count_fits cur) by lia.
      cbn [walk]. rewrite <- app_assoc. reflexivity.
    + cbn [mbind option_bind]. rewrite IH by lia.
      rewrite !slot_count_too_long by lia. reflexivity.
  - rewrite slot_count_too_long by lia. cbn [walk]. rewrite app_nil_r. reflexivity.
Qed.

(** *** The walk *)

Lemma walk_In n : forall start step t,
  In t (walk n start step) <->
  exists i, (i < n)%nat /\ t = start + Z.of_nat i * step.
Proof.
  induction n as [|n IH]; intros s step t; cbn [walk In].
  - split; [intros []|]. intros (i & Hi & _). lia.
  - rewrite IH. split.
    + intros [<-|(i & Hi & ->)]; [exists O; split; lia|].
      exists (S i). split; [lia|]. lia.
    + intros (i & Hi & ->). destruct i as [|i]; [left; lia|].
      right. exists i. split; [lia|]. lia.
Qed.

Lemma walk_lookup n : forall start step (i : nat) t,
  walk n start step !! i = Some t -> t = start + Z.of_nat i * step.
Proof.
  induction n as [|n IH]; intros s step i t; cbn [walk]; [discriminate|].
  destruct i as [|i]; cbn [lookup list_lookup].
  - intros H. inversion H. lia.
  - intros H. apply IH in H. lia.
Qed.

Lemma walk_spaced n start step : spaced_by step (walk n start step).
Proof.
  intros i a b Ha Hb. apply walk_lookup in Ha, Hb. lia.
Qed.

Lemma walk_sorted n : forall start step,
  0 < step -> StronglySorted Z.lt (walk n start step).
Proof.
  induction n as [|n IH]; intros s step Hstep; cbn [walk]; constructor.
  - apply IH. exact Hstep.
  - apply List.Forall_forall. intros t Ht. apply walk_In in Ht as (i & _ & ->). nia.
Qed.

Lemma walk_NoDup n : forall start step, 0 < step -> NoDup (walk n start step).
Proof.
  induction n as [|n IH]; intros s step Hstep; cbn [walk].
  - apply NoDup_nil_2.
  - apply NoDup_cons_2; [|apply IH; exact Hstep].
    rewrite list_elem_of_In, walk_In. intros (i & _ & Hi). nia.
Qed.

(** The slots counted by [slot_count] are those of the walk that end by
    [end_time]. *)
Lemma walk_slot_count_In start end_time duration step t :
  0 < step ->
  In t (walk (slot_count start end_time duration step) start step) <->
  exists k, 0 <= k /\ t = start + k * step /\ t + duration <= end_time.
Proof.
  intros Hstep. rewrite walk_In. unfold slot_count.
  destruct (Z.leb_spec (start + duration) end_time) as [Hfit|Hlong].
  - pose proof (Z.mul_div_le (end_time - duration - start) step Hstep) as Hle.
    assert (Hnn : 0 <= (end_time - duration - start) / step)
      by (apply Z.div_pos; lia).
    split.
    + intros (i & Hi & ->). exists (Z.of_nat i). split; [lia|]. split; [reflexivity|]. nia.
    + intros (k & Hk & -> & Hend). exists (Z.to_nat k). split; [|lia].
      assert (k <= (end_time - duration - start) / step)
        by (apply Z.div_le_lower_bound; lia).
      lia.
  - split; [intros (i & Hi & _); lia|]. intros (k & Hk & -> & Hend). nia.
Qed.

(** C5, as the code has it.  On a day with business hours and no confirmed
    booking, with a buffer that is not negative, and when the closing time
    plus the step and the closing time plus the length of the service both
    stay before midnight, the listing returns the start times [open],
    [open + step], [open + 2 step], ... with [step] the buffer plus 15
    minutes (30 minutes with the default buffer), up to the last one whose
    slot ends by the closing time: ascending, without duplicates, within
    [open, close - duration], consecutive ones [step] apart, and none on
    the walk left out. *)
Theorem slots_of_free_day cfg db day service_name svc hours :
  head (active_services_named db service_name) = Some svc ->
  business_hours cfg !! day_name day = Some hours ->
  confirmed_on db day = [] ->
  0 <= open hours ->
  0 <= buffer_time cfg ->
  close hours + buffer_time cfg + 15 < 1440 ->
  0 <= duration svc -> close hours + duration svc < 1440 ->
  exists slots,
    (forall fuel, (1440 <= fuel)%nat ->
       get_available_slots fuel cfg db (Some day) service_name = Some (Ok slots)) /\
    slots = walk (slot_count (open hours) (close hours) (duration svc) (buffer_time cfg + 15))
                 (open hours) (buffer_time cfg + 15) /\
    StronglySorted Z.lt slots /\
    NoDup slots /\
    Forall (fun t => open hours <= t <= close hours - duration svc) slots /\
    spaced_by (buffer_time cfg + 15) slots /\
    forall k, 0 <= k ->
              open hours + k * (buffer_time cfg + 15) + duration svc <= close hours ->
              In (open hours + k * (buffer_time cfg + 15)) slots.
Proof.
  intros Hsvc Hhours Hnone Hopen Hbuf Hclose Hdur Hlen.
  eexists. split; [|split; [reflexivity|]].
  - intros fuel Hfuel. unfold get_available_slots.
    apply first_or_head with (e := ServiceNotFound) in Hsvc.
    rewrite Hsvc, Hhours, Hnone. cbn [collect_booked_times mbind option_bind].
    rewrite generate_slots_unbooked by lia. reflexivity.
  - split; [apply walk_sorted; lia|]. split; [apply walk_NoDup; lia|].
    split; [|split; [apply walk_spaced|]].
    + apply List.Forall_forall. intros t Ht.
      apply walk_slot_count_In in Ht as (k & Hk & -> & Hend); [|lia]. nia.
    + intros k Hk Hend. apply walk_slot_count_In; [lia|]. exists k. auto.
Qed.

(** On the Monday of the examples with no booking and the default
    settings: the 21 slots from 09:00 to 19:00, half an hour apart. *)
Lemma slots_of_free_day_witness :
  exists slots,
    (forall fuel, (1440 <= fuel)%nat ->
       get_available_slots fuel settings init_db (Some monday) "Swedish Massage"
         = Some (Ok slots)) /\
    slots = [540; 570; 600; 630; 660; 690; 720; 750; 780; 810; 840; 870; 900; 930; 960;
             990; 1020; 1050; 1080; 1110; 1140] /\
    spaced_by 30 slots.
Proof.
  destruct (slots_of_free_day settings init_db monday "Swedish Massage"
              swedish_massage (mk_hours 540 1200))
    as (slots & Hget & Hwalk & _ & _ & _ & Hsp & _).
  - vm_compute. reflexivity.
  - vm_compute. reflexivity.
  - reflexivity.
  - cbn. lia.
  - cbn. lia.
  - cbn. lia.
  - cbn. lia.
  - cbn. lia.
  - exists slots. split; [exact Hget|]. split; [|exact Hsp].
    rewrite Hwalk. vm_compute. reflexivity.
Defined.

(** C5 as stated fails with the default settings: on a Monday without
    bookings the slots of a 60 minute service are 09:00, 09:30, ...,
    19:00, thirty minutes apart and not fifteen. *)
Lemma free_day_slots_not_quarter_spaced :
  exists slots,
    business_hours settings !! day_name monday = Some (mk_hours 540 1200) /\
    bookings init_db = [] /\
    get_available_slots 1440 settings init_db (Some monday) "Swedish Massage"
      = Some (Ok slots) /\
    slots !! 0%nat = Some 540 /\ slots !! 1%nat = Some 570 /\
    ~ spaced_by 15 slots.
Proof.
  eexists.
  split; [vm_compute; reflexivity|]. split; [reflexivity|].
  split; [vm_compute; reflexivity|].
  split; [reflexivity|]. split; [reflexivity|].
  intros H. specialize (H 0%nat 540 570 eq_refl eq_refl). discriminate H.
Qed.

(** A service so long that its end passes midnight is listed although it
    ends after the closing time: the end of the slot wraps to the next
    morning before it is compared.  With the fifteen hour service the slot
    09:00 of a Monday ends at 24:00 and is listed. *)
Lemma slots_wrap_past_midnight :
  exists slots,
    get_available_slots 1440 settings long_day_db (Some monday) "Retreat"
      = Some (Ok slots) /\
    In 540 slots /\ 540 + 900 > 1200.
Proof.
  eexists. split; [vm_compute; reflexivity|]. split; [cbn; tauto|reflexivity].
Qed.

(** ** Times of day as texts

    The routes compare and collect the texts [HH:MM]; the model keeps the
    minutes.  On times of day the two agree. *)

Lemma two_digits_compare x y :
  0 <= x < 60 -> 0 <= y < 60 ->
  String.compare (two_digits x) (two_digits y) = (x ?= y).
Proof.
  intros Hx Hy.
  assert (Hall : forallb (fun i => forallb (fun j => two_digits_agree (Z.of_nat i) (Z.of_nat j))
                                           (seq 0 60)) (seq 0 60) = true)
    by (vm_compute; reflexivity).
  rewrite forallb_forall in Hall.
  specialize (Hall (Z.to_nat x)). rewrite forallb_forall in Hall.
  specialize (Hall ltac:(apply in_seq; lia) (Z.to_nat y) ltac:(apply in_seq; lia)).
  rewrite !Z2Nat.id in Hall by lia. unfold two_digits_agree in Hall.
  destruct (String.compare (two_digits x) (two_digits y)), (x ?= y);
    first [reflexivity | discriminate Hall].
Qed.

Lemma compare_two_chars a1 a2 b1 b2 s t :
  String.compare (String a1 (String a2 s)) (String b1 (String b2 t))
  = match String.compare (String a1 (String a2 "")) (String b1 (String b2 "")) with
    | Eq => String.compare s t
    | c => c
    end.
Proof.
  cbn [String.compare]. destruct (Ascii.compare a1 b1), (Ascii.compare a2 b2); reflexivity.
Qed.

(** The texts [%H:%M] of two times of day compare as their minutes do. *)
Lemma strftime_HM_compare a b :
  0 <= a < 1440 -> 0 <= b < 1440 ->
  String.compare (strftime_HM a) (strftime_HM b) = (a ?= b).
Proof.
  intros Ha Hb. unfold strftime_HM.
  assert (Hh : String.compare (two_digits (a / 60)) (two_digits (b / 60)) = (a / 60 ?= b / 60))
    by (apply two_digits_compare; Z.div_mod_to_equations; lia).
  assert (Hm : String.compare (two_digits (a mod 60)) (two_digits (b mod 60))
               = (a mod 60 ?= b mod 60))
    by (apply two_digits_compare; Z.div_mod_to_equations; lia).
  unfold two_digits in *.
  change (String.compare
            (String (digit (a / 60 / 10)) (String (digit ((a / 60) mod 10))
               (String ":" (String (digit (a mod 60 / 10))
                              (String (digit ((a mod 60) mod 10)) "")))))
            (String (digit (b / 60 / 10)) (String (digit ((b / 60) mod 10))
               (String ":" (String (digit (b mod 60 / 10))
                              (String (digit ((b mod 60) mod 10)) "")))))
          = (a ?= b)).
  rewrite compare_two_chars, Hh.
  destruct (Z.compare_spec (a / 60) (b / 60)) as [E|L|G].
  - cbn [String.compare]. replace (Ascii.compare ":" ":") with Eq by reflexivity.
    fold (String.compare (String (digit (a mod 60 / 10)) (String (digit ((a mod 60) mod 10)) ""))
                         (String (digit (b mod 60 / 10)) (String (digit ((b mod 60) mod 10)) ""))).
    rewrite Hm.
    destruct (Z.compare_spec (a mod 60) (b mod 60)), (Z.compare_spec a b);
      try reflexivity; exfalso; Z.div_mod_to_equations; lia.
  - destruct (Z.compare_spec a b); try reflexivity; exfalso; Z.div_mod_to_equations; lia.
  - destruct (Z.compare_spec a b); try reflexivity; exfalso; Z.div_mod_to_equations; lia.
Qed.

(** Two times of day with the same text are the same time. *)
Lemma strftime_HM_inj a b :
  0 <= a < 1440 -> 0 <= b < 1440 -> strftime_HM a = strftime_HM b -> a = b.
Proof.
  intros Ha Hb E. apply Z.compare_eq. rewrite <- (strftime_HM_compare a b Ha Hb).
  rewrite E. pose proof (String.compare_antisym (strftime_HM b) (strftime_HM b)) as H.
  destruct (String.compare (strftime_HM b) (strftime_HM b)); [reflexivity|discriminate H..].
Qed.

(** ** The rows of the ledger are never rewritten

    The routes have no operation that changes the status of a booking:
    [get_booking] and [get_available_slots] only read, and a run of
    admissions extends the table and leaves every row it found as it was,
    its status included. *)
Lemma admit_all_keeps_rows cfg calls :
  forall db, exists new_rows,
    bookings (fst (admit_all cfg db calls)) = (bookings db ++ new_rows)%list.
Proof.
  induction calls as [|[env r] calls IH]; intros db; cbn [admit_all].
  - exists []. cbn [fst]. rewrite app_nil_r. reflexivity.
  - destruct (IH (session_after db (create_booking cfg env db r))) as (rows & Hrows).
    destruct (admit_all cfg (session_after db (create_booking cfg env db r)) calls)
      as [db' outs] eqn:Hrun.
    cbn [fst] in *. rewrite Hrows.
    destruct (create_booking cfg env db r) as [c|e] eqn:Hc; cbn [session_after].
    + apply create_booking_appends in Hc as (svc & dt & _ & _ & _ & Hb & _).
      rewrite Hb, <- app_assoc. eexists. reflexivity.
    + exists rows. reflexivity.
Qed.

(** * Further properties of the booking routes *)

(** ** The rejections of [create_booking] *)

(** On a ledger whose rows start as [create_booking] stores them, a
    request for a time after 00:00 is never answered "Time slot is already
    booked": the conflict query asks for rows stored with the requested day
    at 00:00, and the rows are stored with their own time of day. *)
Theorem create_booking_conflict_only_at_midnight cfg env db r dt :
  strptime r = Ok dt -> 0 < dt_minute dt ->
  Forall start_as_stored (bookings db) ->
  create_booking cfg env db r <> Raise SlotAlreadyBooked.
Proof.
  intros Hp Hpos Hall H.
  apply create_booking_conflict in H as (svc & dt' & hours & _ & Hp' & _ & _ & _ & Hc).
  rewrite Hp in Hp'. inversion Hp'; subst dt'.
  apply Hc. apply no_conflict_after_midnight; assumption.
Qed.

(** The request for 10:00 of the examples, sent again after it was
    admitted. *)
Lemma create_booking_conflict_only_at_midnight_witness :
  create_booking settings saturday_noon (booked_at 600) (massage_at 600)
  <> Raise SlotAlreadyBooked.
Proof.
  apply (create_booking_conflict_only_at_midnight settings saturday_noon (booked_at 600)
           (massage_at 600) (mk_datetime monday 600)).
  - reflexivity.
  - cbn. lia.
  - constructor; [|constructor]. reflexivity.
Defined.

(** A call answers "Service not found" exactly when no row of the
    catalogue has the requested name and is active, whatever the date, the
    time and the ledger are: a service taken out of the offer cannot be
    booked. *)
Theorem create_booking_service_not_found cfg env db r :
  create_booking cfg env db r = Raise ServiceNotFound <->
  forall s, In s (services db) -> name s = req_service_name r -> is_active s = false.
Proof.
  assert (Hnil : active_services_named db (req_service_name r) = [] <->
                 forall s, In s (services db) -> name s = req_service_name r ->
                           is_active s = false).
  { unfold active_services_named. split.
    - intros E s Hin Hn. destruct (is_active s) eqn:Ha; [|reflexivity]. exfalso.
      assert (Hf : In s (List.filter (fun s => bool_decide (name s = req_service_name r)
                                               && is_active s) (services db))).
      { apply filter_In. split; [exact Hin|]. rewrite Ha, andb_true_r.
        apply bool_decide_eq_true. exact Hn. }
      rewrite E in Hf. exact Hf.
    - intros H.
      destruct (List.filter _ (services db)) as [|s l] eqn:E; [reflexivity|]. exfalso.
      assert (Hf : In s (s :: l)) by (left; reflexivity).
      rewrite <- E in Hf. apply filter_In in Hf as (Hin & Hb).
      apply andb_true_iff in Hb as (Hn & Ha). apply bool_decide_eq_true in Hn.
      rewrite (H s Hin Hn) in Ha. discriminate Ha. }
  rewrite <- Hnil. unfold create_booking. split.
  - destruct (active_services_named db (req_service_name r)) as [|svc rest]; [reflexivity|].
    cbn [first_or mbind result_bind]. intros H. exfalso. revert H.
    destruct (strptime r) as [dt|e] eqn:Hp; cbn [mbind result_bind].
    2:{ apply strptime_Raise in Hp as ->. discriminate. }
    destruct (datetime_leb dt (now env)); cbn [raise_if mbind result_bind]; [discriminate|].
    destruct (business_hours cfg !! day_name (dt_date dt)) as [hours|]; [|discriminate].
    destruct ((dt_minute dt <? open hours) || (close hours <? dt_minute dt));
      cbn [raise_if mbind result_bind]; [discriminate|].
    destruct (found _); cbn [raise_if mbind result_bind mret result_ret]; discriminate.
  - intros ->. reflexivity.
Qed.

(** ** The ledger under a run of admissions *)

Lemma session_after_services cfg env db r :
  services (session_after db (create_booking cfg env db r)) = services db.
Proof.
  destruct (create_booking cfg env db r) as [c|e] eqn:H; cbn [session_after]; [|reflexivity].
  apply create_booking_appends in H as (svc & dt & _ & _ & Hs & _). exact Hs.
Qed.

Lemma admit_all_services cfg calls :
  forall db, services (fst (admit_all cfg db calls)) = services db.
Proof.
  induction calls as [|[env r] calls IH]; intros db; cbn [admit_all]; [reflexivity|].
  specialize (IH (session_after db (create_booking cfg env db r))).
  destruct (admit_all cfg (session_after db (create_booking cfg env db r)) calls) as [db' outs].
  cbn [fst] in *. rewrite IH. apply session_after_services.
Qed.

(** A property of the table of bookings that every returning call keeps is
    kept by a run of calls. *)
Lemma admit_all_preserves cfg (P : Session -> Prop) :
  (forall env db r c, create_booking cfg env db r = Ok c -> P db -> P (session c)) ->
  forall calls db, P db -> P (fst (admit_all cfg db calls)).
Proof.
  intros Hstep. induction calls as [|[env r] calls IH]; intros db HP; cbn [admit_all];
    [exact HP|].
  specialize (IH (session_after db (create_booking cfg env db r))).
  destruct (admit_all cfg (session_after db (create_booking cfg env db r)) calls) as [db' outs].
  cbn [fst] in *. apply IH.
  destruct (create_booking cfg env db r) as [c|e] eqn:H; cbn [session_after]; [|exact HP].
  apply (Hstep env db r c H HP).
Qed.

(** The keys of the bookings stay distinct: a run of admissions on a
    ledger without a repeated key leaves none. *)
Theorem admit_all_keys_distinct cfg calls db :
  NoDup (map id (bookings db)) ->
  NoDup (map id (bookings (fst (admit_all cfg db calls)))).
Proof.
  apply (admit_all_preserves cfg (fun db => NoDup (map id (bookings db)))).
  clear. intros env db r c H Hnd.
  apply create_booking_appends in H as (svc & dt & _ & _ & _ & Hb & _).
  rewrite Hb, map_app. cbn [map new_booking id].
  apply NoDup_app. split; [exact Hnd|]. split; [|apply NoDup_singleton].
  intros x Hx Hx'. apply list_elem_of_singleton in Hx'. subst x.
  apply list_elem_of_In, in_map_iff in Hx as (b & Hid & Hin).
  apply id_below_next_id in Hin. lia.
Qed.

Lemma admit_all_keys_distinct_witness :
  NoDup (map id (bookings (fst (admit_all settings init_db
           [ (saturday_noon, massage_at 600); (saturday_noon, massage_at 720) ])))).
Proof.
  apply (admit_all_keys_distinct settings
           [ (saturday_noon, massage_at 600); (saturday_noon, massage_at 720) ] init_db).
  cbn. apply NoDup_nil_2.
Defined.

(** A booking that can be looked up stays as it was found: after any run
    of admissions [get_booking] answers for its key what it answered
    before. *)
Theorem get_booking_stable cfg calls db i d :
  get_booking db i = Ok d ->
  get_booking (fst (admit_all cfg db calls)) i = Ok d.
Proof.
  revert db. apply (admit_all_preserves cfg (fun db => get_booking db i = Ok d)).
  intros env db r c H Hget.
  apply create_booking_appends in H as (svc & dt & _ & _ & _ & Hb & _).
  unfold get_booking in *. rewrite Hb, List.filter_app.
  destruct (List.filter (fun b => id b =? i) (bookings db)) as [|b l];
    [discriminate Hget|].
  exact Hget.
Qed.

Lemma get_booking_stable_witness :
  exists d,
    get_booking (booked_at 600) 1 = Ok d /\
    get_booking (fst (admit_all settings (booked_at 600)
                        [ (saturday_noon, massage_at 720) ])) 1 = Ok d.
Proof.
  eexists. split; [vm_compute; reflexivity|].
  apply (get_booking_stable settings [ (saturday_noon, massage_at 720) ] (booked_at 600) 1).
  vm_compute. reflexivity.
Defined.

(** [get_booking] answers "Booking not found" exactly for the keys that no
    row has. *)
Theorem get_booking_not_found db i :
  get_booking db i = Raise BookingNotFound <->
  forall b, In b (bookings db) -> id b <> i.
Proof.
  unfold get_booking. split.
  - destruct (List.filter (fun b => id b =? i) (bookings db)) as [|b0 l] eqn:E;
      cbn [first_or mbind result_bind mret result_ret]; [|discriminate].
    intros _ b Hin Hid.
    assert (Hf : In b (List.filter (fun b => id b =? i) (bookings db)))
      by (apply filter_In; split; [exact Hin|apply Z.eqb_eq; exact Hid]).
    rewrite E in Hf. exact Hf.
  - intros H. destruct (List.filter (fun b => id b =? i) (bookings db)) as [|b0 l] eqn:E;
      [reflexivity|].
    exfalso. assert (Hf : In b0 (b0 :: l)) by (left; reflexivity).
    rewrite <- E in Hf. apply filter_In in Hf as (Hin & Hid).
    apply Z.eqb_eq in Hid. exact (H b0 Hin Hid).
Qed.

(** Every row a run of admissions adds has the shape [create_booking]
    gives it: confirmed, starting at the minute of its appointment within
    the hours of a day that has hours, and carrying the name, length and
    price of an active service of the catalogue. *)
Theorem admit_all_admitted_shape cfg calls db :
  Forall (admitted_shape cfg (services db)) (bookings db) ->
  Forall (admitted_shape cfg (services db)) (bookings (fst (admit_all cfg db calls))).
Proof.
  intros H0.
  assert (Hboth : services (fst (admit_all cfg db calls)) = services db /\
                  Forall (admitted_shape cfg (services db))
                         (bookings (fst (admit_all cfg db calls)))).
  { apply (admit_all_preserves cfg
             (fun db' => services db' = services db /\
                         Forall (admitted_shape cfg (services db)) (bookings db')));
      [|split; [reflexivity|exact H0]].
    intros env db' r c H (Hsv & Hall).
    apply create_booking_Ok in H as (svc & dt & hours & Hs & Hp & _ & Hh & Ho & _ & ->).
    cbn [book session services bookings]. split; [exact Hsv|].
    apply Forall_app. split; [exact Hall|]. constructor; [|constructor].
    unfold admitted_shape. cbn [new_booking status appointment_time appointment_date
                                service_name service_duration total_price].
    split; [reflexivity|]. split; [reflexivity|].
    split; [exists hours; split; assumption|].
    exists svc.
    assert (Hin : In svc (active_services_named db' (req_service_name r))).
    { destruct (active_services_named db' (req_service_name r)); [discriminate Hs|].
      inversion Hs. left. reflexivity. }
    unfold active_services_named in Hin. apply filter_In in Hin as (Hin & Hb).
    apply andb_true_iff in Hb as (_ & Ha). rewrite <- Hsv.
    repeat split; try assumption; reflexivity. }
  exact (proj2 Hboth).
Qed.

Lemma admit_all_admitted_shape_witness :
  Forall (admitted_shape settings (services init_db))
         (bookings (fst (admit_all settings init_db
                           [ (saturday_noon, massage_at 600);
                             (saturday_noon, massage_at 1170) ]))).
Proof.
  apply (admit_all_admitted_shape settings
           [ (saturday_noon, massage_at 600); (saturday_noon, massage_at 1170) ] init_db).
  cbn. constructor.
Defined.

(** An admitted request that is sent again is admitted again.  On a
    ledger whose rows start as [create_booking] stores them, after a call
    that returned for a time after 00:00, the same request, at any clock
    reading before the appointment, returns once more and leaves two
    confirmed bookings of the same start. *)
Theorem resubmission_admitted_again cfg env env' db r c :
  create_booking cfg env db r = Ok c ->
  Forall start_as_stored (bookings db) ->
  0 < dt_minute (appointment_datetime (response c)) ->
  datetime_leb (appointment_datetime (response c)) (now env') = false ->
  exists c' b b',
    create_booking cfg env' (session c) r = Ok c' /\
    bookings (session c') = (bookings db ++ [b; b'])%list /\
    status b = "confirmed" /\ status b' = "confirmed" /\
    appointment_date b = appointment_date b' /\
    appointment_time b = appointment_time b' /\
    service_duration b = service_duration b'.
Proof.
  intros H Hall Hpos Hf.
  apply create_booking_Ok in H as (svc & dt & hours & Hs & Hp & _ & Hh & Ho & _ & ->).
  cbn [book response appointment_datetime] in Hpos, Hf.
  exists (book cfg env' (session (book cfg env db r svc dt)) r svc dt).
  exists (new_booking env db r svc dt).
  exists (new_booking env' (session (book cfg env db r svc dt)) r svc dt).
  split; [|split; [cbn [book session bookings]; rewrite <- app_assoc; reflexivity|]].
  - apply create_booking_Ok. exists svc, dt, hours.
    split; [exact Hs|]. split; [exact Hp|]. split; [exact Hf|]. split; [exact Hh|].
    split; [exact Ho|]. split; [|reflexivity].
    apply no_conflict_after_midnight; [|exact Hpos].
    cbn [book session bookings]. apply Forall_app. split; [exact Hall|].
    constructor; [reflexivity|constructor].
  - repeat split; reflexivity.
Qed.

(** The request for 10:00 of the examples, sent twice. *)
Lemma resubmission_admitted_again_witness :
  exists c' b b',
    create_booking settings saturday_noon (booked_at 600) (massage_at 600) = Ok c' /\
    bookings (session c') = (bookings init_db ++ [b; b'])%list /\
    status b = "confirmed" /\ status b' = "confirmed" /\
    appointment_date b = appointment_date b' /\
    appointment_time b = appointment_time b' /\
    service_duration b = service_duration b'.
Proof.
  apply (resubmission_admitted_again settings saturday_noon saturday_noon init_db
           (massage_at 600)
           (book settings saturday_noon init_db (massage_at 600) swedish_massage
                 (mk_datetime monday 600))).
  - vm_compute. reflexivity.
  - constructor.
  - cbn. lia.
  - reflexivity.
Defined.

(** ** Further properties of the slot listing *)

Lemma generate_slots_never_leaves cfg duration (booked_times : gset Z) inner fuel :
  forall current_time available_slots,
    0 <= current_time < 1440 ->
    generate_slots fuel inner cfg duration 1439 booked_times current_time available_slots
      = None.
Proof.
  induction fuel as [|fuel IH]; intros cur acc Hcur; cbn [generate_slots]; [reflexivity|].
  destruct (Z.leb_spec cur 1439) as [_|Hgt]; [|lia].
  assert (Hnext : 0 <= time_plus cur (buffer_time cfg + 15) < 1440)
    by (unfold time_plus; apply Z.mod_pos_bound; lia).
  destruct (time_plus cur duration <=? 1439).
  - destruct (slot_is_available inner cur (time_plus cur duration) booked_times) as [[|]|];
      cbn [mbind option_bind]; [apply IH; exact Hnext..|reflexivity].
  - cbn [mbind option_bind]. apply IH. exact Hnext.
Qed.



(** With booked times the outer loop appends some of the walk, in order. *)
Lemma generate_slots_sublist cfg duration end_time (booked_times : gset Z) inner fuel :
  0 <= buffer_time cfg -> end_time + buffer_time cfg + 15 < 1440 ->
  0 <= duration -> end_time + duration < 1440 -> (1426 <= inner)%nat ->
  forall current_time available_slots,
    0 <= current_time ->
    (Z.to_nat (end_time + 1 - current_time) < fuel)%nat ->
    exists rest,
      generate_slots fuel inner cfg duration end_time booked_times
                     current_time available_slots
        = Some (available_slots ++ rest)%list /\
      sublist rest (walk (slot_count current_time end_time duration (buffer_time cfg + 15))
                         current_time (buffer_time cfg + 15)).
Proof.
  intros Hbuf Hclose Hdur Hlen Hinner.
  induction fuel as [|fuel IH]; intros cur acc Hcur Hfuel; [lia|].
  cbn [generate_slots]. destruct (Z.leb_spec cur end_time) as [Hle|Hgt].
  - rewrite (time_plus_small cur duration) by lia.
    rewrite (time_plus_small cur (buffer_time cfg + 15)) by lia.
    destruct (Z.leb_spec (cur + duration) end_time) as [Hfit|Hlong].
    + destruct (slot_is_available_spec inner booked_times cur (cur + duration))
        as (r & Hr & _); [lia|lia|lia|].
      rewrite Hr. cbn [mbind option_bind]. rewrite (slot_count_fits cur) by lia.
      cbn [walk]. destruct r.
      * destruct (IH (cur + (buffer_time cfg + 15)) (acc ++ [cur])%list)
          as (rest & Hrest & Hsub); [lia|lia|].
        exists (cur :: rest). rewrite Hrest, <- app_assoc. split; [reflexivity|].
        apply sublist_skip. exact Hsub.
      * destruct (IH (cur + (buffer_time cfg + 15)) acc) as (rest & Hrest & Hsub); [lia|lia|].
        exists rest. split; [exact Hrest|]. apply sublist_cons. exact Hsub.
    + cbn [mbind option_bind].
      destruct (IH (cur + (buffer_time cfg + 15)) acc) as (rest & Hrest & Hsub); [lia|lia|].
      exists rest. split; [exact Hrest|].
      rewrite slot_count_too_long in * by lia. exact Hsub.
  - exists []. rewrite app_nil_r. split; [reflexivity|]. apply sublist_nil_l.
Qed.



(** An admission leaves the listing as it was.  After a call of
    [create_booking] that returns for a time other than 00:00, the listing
    answers for every date and service what it answered before: the new
    booking is stored with its own time of day, and the listing reads the
    bookings stored with the day at 00:00. *)
Theorem admission_leaves_listing_unchanged cfg env db r c :
  create_booking cfg env db r = Ok c ->
  dt_minute (appointment_datetime (response c)) <> 0 ->
  forall fuel date service_name,
    get_available_slots fuel cfg (session c) date service_name
    = get_available_slots fuel cfg db date service_name.
Proof.
  intros H Hm fuel date service_name.
  apply create_booking_Ok in H as (svc & dt & hours & _ & _ & _ & _ & _ & _ & ->).
  cbn [book response appointment_datetime] in Hm.
  unfold get_available_slots, active_services_named. cbn [book session services].
  destruct (first_or _ ServiceNotFound) as [service|e]; [|reflexivity].
  destruct date as [target_date|]; [|reflexivity].
  destruct (business_hours cfg !! day_name target_date) as [hours'|]; [|reflexivity].
  rewrite (confirmed_on_app_stored db (new_booking env db r svc dt) target_date) by exact Hm.
  reflexivity.
Qed.

(** The Monday of the examples, before and after the booking for 10:00. *)
Lemma admission_leaves_listing_unchanged_witness :
  get_available_slots 1440 settings (booked_at 600) (Some monday) "Swedish Massage"
  = get_available_slots 1440 settings init_db (Some monday) "Swedish Massage".
Proof.
  apply (admission_leaves_listing_unchanged settings saturday_noon init_db (massage_at 600)
           (book settings saturday_noon init_db (massage_at 600) swedish_massage
                 (mk_datetime monday 600))).
  - vm_compute. reflexivity.
  - cbn. lia.
Defined.

(** ** The confirmation code and the UUID *)

(** A hexadecimal digit of the first eight is a digit of [top_digits]. *)
Lemma hex_digit_of_top_digits u (w : nat) :
  (24 <= w < 32)%nat ->
  (u / 16 ^ Z.of_nat w) mod 16 = (top_digits u / 16 ^ (Z.of_nat w - 24)) mod 16.
Proof.
  intros Hw. unfold top_digits.
  set (k := Z.of_nat w - 24). assert (Hk : 0 <= k < 8) by lia.
  replace (Z.of_nat w) with (24 + k) by lia.
  rewrite Z.pow_add_r by lia. rewrite <- Z.div_div by lia.
  set (x := u / 16 ^ 24).
  replace (16 ^ 8) with (16 ^ k * 16 ^ (8 - k))
    by (rewrite <- Z.pow_add_r by lia; f_equal; lia).
  assert (Hpk : 0 < 16 ^ k) by (apply Z.pow_pos_nonneg; lia).
  assert (Hpr : 0 < 16 ^ (8 - k)) by (apply Z.pow_pos_nonneg; lia).
  rewrite Z.rem_mul_r by lia.
  rewrite (Z.mul_comm (16 ^ k)), Z.div_add by lia.
  rewrite (Z.div_small (x mod 16 ^ k)) by (apply Z.mod_pos_bound; lia).
  rewrite Z.add_0_l.
  replace (16 ^ (8 - k)) with (16 * 16 ^ (7 - k))
    by (rewrite <- Z.pow_succ_r by lia; f_equal; lia).
  assert (Hp7 : 0 < 16 ^ (7 - k)) by (apply Z.pow_pos_nonneg; lia).
  rewrite Z.rem_mul_r by lia.
  rewrite (Z.mul_comm 16), Z.mod_add by lia. rewrite Z.mod_mod by lia. reflexivity.
Qed.

Lemma upper_hex_digit_inj a b :
  0 <= a < 16 -> 0 <= b < 16 ->
  upper_ascii (hex_digit a) = upper_ascii (hex_digit b) -> a = b.
Proof.
  intros Ha Hb.
  assert (Ea : a = 0 \/ a = 1 \/ a = 2 \/ a = 3 \/ a = 4 \/ a = 5 \/ a = 6 \/ a = 7 \/
               a = 8 \/ a = 9 \/ a = 10 \/ a = 11 \/ a = 12 \/ a = 13 \/ a = 14 \/ a = 15)
    by lia.
  assert (Eb : b = 0 \/ b = 1 \/ b = 2 \/ b = 3 \/ b = 4 \/ b = 5 \/ b = 6 \/ b = 7 \/
               b = 8 \/ b = 9 \/ b = 10 \/ b = 11 \/ b = 12 \/ b = 13 \/ b = 14 \/ b = 15)
    by lia.
  clear Ha Hb.
  repeat (destruct Ea as [->|Ea]);
    try subst a;
    repeat (destruct Eb as [->|Eb]);
    try subst b;
    intros H; first [reflexivity | discriminate H].
Qed.

(** A number below [16 ^ n] is determined by its [n] hexadecimal digits. *)
Lemma hex_digits_determine (n : nat) :
  forall x y,
    0 <= x < 16 ^ Z.of_nat n -> 0 <= y < 16 ^ Z.of_nat n ->
    (forall k, 0 <= k < Z.of_nat n -> (x / 16 ^ k) mod 16 = (y / 16 ^ k) mod 16) ->
    x = y.
Proof.
  induction n as [|n IH]; intros x y Hx Hy Hd.
  - cbn in Hx, Hy. lia.
  - rewrite Nat2Z.inj_succ, Z.pow_succ_r in Hx, Hy by lia.
    assert (H0 : x mod 16 = y mod 16).
    { specialize (Hd 0). rewrite Z.pow_0_r, !Z.div_1_r in Hd. apply Hd. lia. }
    assert (Hq : x / 16 = y / 16).
    { apply IH.
      - split; [apply Z.div_pos; lia|apply Z.div_lt_upper_bound; lia].
      - split; [apply Z.div_pos; lia|apply Z.div_lt_upper_bound; lia].
      - intros k Hk. specialize (Hd (k + 1)).
        rewrite Z.pow_add_r, Z.pow_1_r, (Z.mul_comm (16 ^ k)) in Hd by lia.
        rewrite <- !Z.div_div in Hd by (try lia; apply Z.pow_pos_nonneg; lia).
        apply Hd. lia. }
    rewrite (Z.div_mod x 16), (Z.div_mod y 16) by lia. rewrite H0, Hq. reflexivity.
Qed.

Lemma new_confirmation_code_same_iff env env' :
  new_confirmation_code env = new_confirmation_code env' <->
  top_digits (uuid4 env) = top_digits (uuid4 env').
Proof.
  unfold new_confirmation_code, str_uuid.
  cbn [hex firstn skipn app string_of_list_ascii String.substring upper].
  rewrite !(hex_digit_of_top_digits (uuid4 env)) by lia.
  rewrite !(hex_digit_of_top_digits (uuid4 env')) by lia.
  split.
  - intros H.
    apply (hex_digits_determine 8).
    + unfold top_digits. apply Z.mod_pos_bound. reflexivity.
    + unfold top_digits. apply Z.mod_pos_bound. reflexivity.
    + intros k Hk.
      injection H as H7 H6 H5 H4 H3 H2 H1 H0.
      apply upper_hex_digit_inj in H0, H1, H2, H3, H4, H5, H6, H7;
        try (apply Z.mod_pos_bound; lia).
      assert (E : k = 0 \/ k = 1 \/ k = 2 \/ k = 3 \/ k = 4 \/ k = 5 \/ k = 6 \/ k = 7)
        by lia.
      destruct E as [->|[->|[->|[->|[->|[->|[->| ->]]]]]]]; assumption.
  - intros ->. reflexivity.
Qed.

(** Two calls draw the same confirmation code exactly when their UUIDs have
    the same first eight hexadecimal digits: the code keeps 32 of the 128
    bits, and two different UUIDs can give one code. *)
Theorem confirmation_code_same_iff env env' :
  new_confirmation_code env = new_confirmation_code env' <->
  top_digits (uuid4 env) = top_digits (uuid4 env').
Proof. exact (new_confirmation_code_same_iff env env'). Qed.

(** C7, as the code has it.  A call of [create_booking] that returns has
    appended one row to the table of bookings, with status "confirmed", and
    its response carries the key and the status of that row.  With it the
    call generates a confirmation code from the UUID it draws: eight
    characters, digits or capital letters, the same as the code of another
    call exactly when the two UUIDs have the same first eight hexadecimal
    digits.  The code is reported by the response and handed to the two
    e-mails, and it is not inserted: the call leaves the same table
    whatever UUID it draws. *)
Theorem create_booking_confirmed_with_fresh_code cfg env db r c :
  create_booking cfg env db r = Ok c ->
  exists b,
    bookings (session c) = (bookings db ++ [b])%list /\
    status b = "confirmed" /\
    booking_id (response c) = id b /\
    resp_status (response c) = status b /\
    confirmation_code (response c)
      = upper (String.substring 0 8 (str_uuid (uuid4 env))) /\
    (8 <= String.length (confirmation_code (response c)))%nat /\
    forallb is_alnum (list_ascii_of_string (confirmation_code (response c))) = true /\
    (forall env', confirmation_code (response c) = new_confirmation_code env' <->
                  top_digits (uuid4 env) = top_digits (uuid4 env')) /\
    map email_confirmation_code (background_tasks c)
      = [confirmation_code (response c); confirmation_code (response c)] /\
    forall u, exists c',
      create_booking cfg (with_uuid env u) db r = Ok c' /\ session c' = session c.
Proof.
  intros H.
  apply create_booking_Ok in H as (svc & dt & hours & Hs & Hp & Hf & Hh & Ho & Hc & ->).
  exists (new_booking env db r svc dt).
  destruct (new_confirmation_code_shape env) as [Hlen Hal].
  cbn [book response session bookings background_tasks booking_id resp_status
       confirmation_code new_booking status map email_confirmation_code].
  split; [reflexivity|]. split; [reflexivity|]. split; [reflexivity|].
  split; [reflexivity|]. split; [reflexivity|].
  split; [rewrite Hlen; lia|]. split; [exact Hal|].
  split; [intros env'; apply new_confirmation_code_same_iff|].
  split; [reflexivity|].
  intros u. exists (book cfg (with_uuid env u) db r svc dt). split; [|reflexivity].
  apply create_booking_Ok. exists svc, dt, hours. repeat split; try assumption; apply Ho.
Qed.

(** At the first request of the examples: the row inserted has key 1 and
    status "confirmed", and the code "1234ABCD" goes to the response and to
    both e-mails. *)
Lemma create_booking_confirmed_with_fresh_code_witness :
  exists c b,
    create_booking settings saturday_noon init_db (massage_at 600) = Ok c /\
    bookings (session c) = (bookings init_db ++ [b])%list /\
    status b = "confirmed" /\ id b = 1 /\
    confirmation_code (response c) = "1234ABCD" /\
    map email_confirmation_code (background_tasks c) = ["1234ABCD"; "1234ABCD"].
Proof.
  pose (c := book settings saturday_noon init_db (massage_at 600) swedish_massage
                  (mk_datetime monday 600)).
  assert (H : create_booking settings saturday_noon init_db (massage_at 600) = Ok c)
    by (vm_compute; reflexivity).
  destruct (create_booking_confirmed_with_fresh_code settings saturday_noon init_db
              (massage_at 600) c H)
    as (b & Hb & Hs & Hid & _ & Hcode & _ & _ & _ & Hmail & _).
  exists c, b. split; [exact H|]. split; [exact Hb|]. split; [exact Hs|].
  split; [symmetry; exact Hid|].
  assert (E : confirmation_code (response c) = "1234ABCD") by (vm_compute; reflexivity).
  split; [exact E|]. rewrite Hmail, E. reflexivity.
Defined.

(** C7 as stated fails where it has the code inserted with the booking:
    two calls that differ in the UUID they draw get two codes and insert
    the same row, which carries neither. *)
Lemma confirmation_code_not_inserted :
  exists c c' b,
    create_booking settings saturday_noon init_db (massage_at 600) = Ok c /\
    create_booking settings (with_uuid saturday_noon 7) init_db (massage_at 600) = Ok c' /\
    confirmation_code (response c) = "1234ABCD" /\
    confirmation_code (response c') = "00000000" /\
    bookings (session c) = [b] /\ bookings (session c') = [b].
Proof.
  eexists. eexists. eexists.
  split; [vm_compute; reflexivity|]. split; [vm_compute; reflexivity|].
  split; [reflexivity|]. split; [vm_compute; reflexivity|].
  split; [reflexivity|]. reflexivity.
Qed.

(** * The catalogue routes *)

(** ** GET /services *)

Lemma text_leb_total a b : text_leb a b = false -> text_leb b a = true.
Proof.
  unfold text_leb. rewrite (String.compare_antisym b a).
  destruct (String.compare a b); cbn; first [discriminate | reflexivity].
Qed.

Lemma by_category_name_total s1 s2 :
  by_category_name s1 s2 = false -> by_category_name s2 s1 = true.
Proof.
  unfold by_category_name.
  rewrite (String.compare_antisym (category s2) (category s1)).
  destruct (String.compare (category s1) (category s2)); cbn;
    first [discriminate | reflexivity | apply text_leb_total].
Qed.

Lemma insert_ordered_In x rows s :
  In s (Services.insert_ordered x rows) <-> s = x \/ In s rows.
Proof.
  induction rows as [|y rows IH]; cbn [Services.insert_ordered In].
  - intuition.
  - destruct (Services.by_category_name x y); cbn [In]; [intuition|].
    rewrite IH. intuition.
Qed.

Lemma order_by_category_name_In rows s :
  In s (Services.order_by_category_name rows) <-> In s rows.
Proof.
  unfold Services.order_by_category_name.
  induction rows as [|x rows IH]; cbn [fold_right In]; [tauto|].
  rewrite insert_ordered_In, IH. intuition.
Qed.

Lemma insert_ordered_sorted x rows :
  Sorted (fun a b => Services.by_category_name a b = true) rows ->
  Sorted (fun a b => Services.by_category_name a b = true) (Services.insert_ordered x rows).
Proof.
  induction rows as [|y rows IH]; intros Hs; cbn [Services.insert_ordered].
  - constructor; constructor.
  - destruct (Services.by_category_name x y) eqn:E.
    + constructor; [exact Hs|]. constructor. exact E.
    + inversion Hs as [|? ? Hs' Hhd]; subst. constructor; [apply IH; exact Hs'|].
      destruct rows as [|z rows]; cbn [Services.insert_ordered].
      * constructor. apply by_category_name_total. exact E.
      * destruct (Services.by_category_name x z).
        -- constructor. apply by_category_name_total. exact E.
        -- inversion Hhd; subst. constructor. assumption.
Qed.

(** The services come back in the order of category, then name: each one
    is at or before the next. *)
Theorem get_services_sorted db category :
  Sorted (fun a b => Services.by_category_name a b = true)
         (Services.get_services db category).
Proof.
  unfold Services.get_services, Services.order_by_category_name.
  generalize (match category with
              | Some c =>
                if bool_decide (c = "") then Services.active_services db
                else List.filter (fun s => bool_decide (Database.category s = c))
                                 (Services.active_services db)
              | None => Services.active_services db
              end).
  intros rows. induction rows as [|x rows IH]; cbn [fold_right].
  - constructor.
  - apply insert_ordered_sorted. exact IH.
Qed.

(** What is listed is an active row of the catalogue, whatever category
    was asked for. *)
Lemma get_services_active db category s :
  In s (Services.get_services db category) -> In s (services db) /\ is_active s = true.
Proof.
  unfold Services.get_services, Services.active_services.
  rewrite order_by_category_name_In.
  destruct category as [c|]; [destruct (bool_decide (c = ""))|];
    rewrite ?filter_In; tauto.
Qed.

Lemma get_services_all db s :
  In s (Services.get_services db None) <-> In s (services db) /\ is_active s = true.
Proof.
  unfold Services.get_services, Services.active_services.
  rewrite order_by_category_name_In, filter_In. tauto.
Qed.

(** A service is listed exactly when it is a row of the catalogue, is
    active, and has the category asked for; no category and the empty text
    ask for no category. *)
Theorem get_services_lists_active_of_category db category s :
  In s (Services.get_services db category) <->
  In s (services db) /\ is_active s = true /\
  forall c, category = Some c -> c <> "" -> Database.category s = c.
Proof.
  unfold Services.get_services, Services.active_services.
  rewrite order_by_category_name_In.
  destruct category as [c|].
  - destruct (bool_decide (c = "")) eqn:E.
    + apply bool_decide_eq_true in E. subst c. rewrite filter_In. split.
      * intros (Hin & Ha). split; [exact Hin|]. split; [exact Ha|].
        intros c Hc Hne. inversion Hc. congruence.
      * intros (Hin & Ha & _). split; assumption.
    + apply bool_decide_eq_false in E. rewrite !filter_In, bool_decide_eq_true. split.
      * intros ((Hin & Ha) & Hc). split; [exact Hin|]. split; [exact Ha|].
        intros c' Hc' _. inversion Hc'. subst c'. exact Hc.
      * intros (Hin & Ha & Hc). split; [split; assumption|]. apply Hc; [reflexivity|exact E].
  - rewrite filter_In. split.
    + intros (Hin & Ha). split; [exact Hin|]. split; [exact Ha|]. intros c Hc. discriminate Hc.
    + intros (Hin & Ha & _). split; assumption.
Qed.

(** ** GET /services/{service_id} *)

(** [get_service] finds a service for exactly the keys of the services that
    [get_services] lists without a category. *)
Theorem get_service_found_iff_listed db i :
  (exists s, Services.get_service db i = Ok s) <->
  exists s, In s (Services.get_services db None) /\ service_id s = i.
Proof.
  unfold Services.get_service. split.
  - intros (s & H). apply first_or_head in H.
    assert (Hin : In s (List.filter (fun s => (service_id s =? i) && is_active s)
                                    (services db))).
    { destruct (List.filter _ (services db)); [discriminate H|]. inversion H. left. reflexivity. }
    apply filter_In in Hin as (Hin & Hb). apply andb_true_iff in Hb as (Hid & Ha).
    exists s. split; [|apply Z.eqb_eq; exact Hid].
    apply get_services_all. split; [exact Hin|exact Ha].
  - intros (s & Hl & Hid). apply get_services_all in Hl as (Hin & Ha).
    destruct (List.filter (fun s => (service_id s =? i) && is_active s) (services db))
      as [|s' l] eqn:E.
    + exfalso.
      assert (Hf : In s (List.filter (fun s => (service_id s =? i) && is_active s)
                                     (services db))).
      { apply filter_In. split; [exact Hin|]. rewrite Ha, andb_true_r. apply Z.eqb_eq.
        exact Hid. }
      rewrite E in Hf. exact Hf.
    + exists s'. reflexivity.
Qed.

Lemma NoDup_map_inj {A B : Type} (f : A -> B) (l : list A) a b :
  NoDup (map f l) -> In a l -> In b l -> f a = f b -> a = b.
Proof.
  induction l as [|x l IH]; cbn [map In]; [tauto|].
  intros Hnd Ha Hb E. apply NoDup_cons in Hnd as (Hx & Hnd).
  destruct Ha as [->|Ha], Hb as [->|Hb].
  - reflexivity.
  - exfalso. apply Hx. rewrite E. apply list_elem_of_In, in_map. exact Hb.
  - exfalso. apply Hx. rewrite <- E. apply list_elem_of_In, in_map. exact Ha.
  - apply IH; assumption.
Qed.

(** When the keys of the catalogue are distinct, every service that
    [get_services] lists is the one [get_service] returns for its key. *)
Theorem get_service_of_listed db category s :
  NoDup (map service_id (services db)) ->
  In s (Services.get_services db category) ->
  Services.get_service db (service_id s) = Ok s.
Proof.
  intros Hnd Hl. apply get_services_active in Hl as (Hin & Ha).
  unfold Services.get_service.
  destruct (List.filter (fun s0 => (service_id s0 =? service_id s) && is_active s0)
                        (services db)) as [|s' l] eqn:E.
  - exfalso.
    assert (Hf : In s (List.filter (fun s0 => (service_id s0 =? service_id s) && is_active s0)
                                   (services db))).
    { apply filter_In. split; [exact Hin|]. rewrite Ha, Z.eqb_refl. reflexivity. }
    rewrite E in Hf. exact Hf.
  - cbn [first_or]. f_equal.
    assert (Hf : In s' (s' :: l)) by (left; reflexivity).
    rewrite <- E in Hf. apply filter_In in Hf as (Hin' & Hb).
    apply andb_true_iff in Hb as (Hid & _). apply Z.eqb_eq in Hid.
    apply (NoDup_map_inj service_id (services db)); assumption.
Qed.

Lemma get_service_of_listed_witness :
  Services.get_service init_db 6
  = Ok (mk_service 6 "Body Scrub" "Exfoliating body treatment with natural ingredients"
                   45 65 "body_treatment" true).
Proof.
  apply (get_service_of_listed init_db (Some "body_treatment")
           (mk_service 6 "Body Scrub" "Exfoliating body treatment with natural ingredients"
                       45 65 "body_treatment" true)).
  - apply (bool_decide_unpack _). vm_compute. exact I.
  - vm_compute. left. reflexivity.
Defined.

(** ** GET /services/categories *)

Lemma add_to_category_keys categories s :
  NoDup (map fst categories) -> NoDup (map fst (add_to_category categories s)).
Proof.
  assert (Hkeys : forall g k, In k (map fst (add_to_category g s)) ->
                              k = category s \/ In k (map fst g)).
  { induction g as [|[c l] g IH]; intros k; cbn [add_to_category map fst In].
    - intuition.
    - destruct (bool_decide (c = category s)); cbn [map fst In]; [intuition|].
      intros [Hk|Hk]; [intuition|]. apply IH in Hk. intuition. }
  induction categories as [|[c l] g IH]; intros Hnd; cbn [add_to_category map fst].
  - apply NoDup_singleton.
  - cbn [map fst] in Hnd. apply NoDup_cons in Hnd as (Hc & Hnd).
    destruct (bool_decide (c = category s)) eqn:E; cbn [map fst].
    + apply NoDup_cons. split; assumption.
    + apply bool_decide_eq_false in E. apply NoDup_cons. split; [|apply IH; exact Hnd].
      intros Hin. apply list_elem_of_In, Hkeys in Hin as [Hin|Hin]; [contradiction|].
      apply Hc, list_elem_of_In. exact Hin.
Qed.

Lemma add_to_category_groups categories s :
  Forall (fun g => snd g <> [] /\ Forall (fun x => category x = fst g) (snd g)) categories ->
  Forall (fun g => snd g <> [] /\ Forall (fun x => category x = fst g) (snd g))
         (add_to_category categories s).
Proof.
  induction categories as [|[c l] g IH]; intros Hall; cbn [add_to_category].
  - constructor; [|constructor]. cbn. split; [discriminate|]. constructor; [reflexivity|constructor].
  - inversion Hall as [|? ? (Hne & Hcat) Hrest]; subst. cbn [fst snd] in *.
    destruct (bool_decide (c = category s)) eqn:E.
    + apply bool_decide_eq_true in E. constructor; [|exact Hrest]. cbn [fst snd]. split.
      * destruct l; discriminate.
      * apply Forall_app. split; [exact Hcat|]. constructor; [symmetry; exact E|constructor].
    + constructor; [split; assumption|]. apply IH. exact Hrest.
Qed.

Lemma add_to_category_members categories s :
  Permutation (concat (map snd (add_to_category categories s)))
              (s :: concat (map snd categories)).
Proof.
  induction categories as [|[c l] g IH]; cbn [add_to_category map snd concat].
  - reflexivity.
  - destruct (bool_decide (c = category s)); cbn [map snd concat].
    + rewrite <- app_assoc. cbn [app]. symmetry. apply Permutation_middle.
    + rewrite IH. symmetry. apply Permutation_middle.
Qed.

(** The groups have distinct categories, none is empty, each holds
    services of its own category only, and together they hold the services
    that [get_services] lists without a category, each as often. *)
Theorem get_services_by_category_groups db :
  NoDup (map fst (get_services_by_category db)) /\
  Forall (fun g => snd g <> [] /\ Forall (fun s => category s = fst g) (snd g))
         (get_services_by_category db) /\
  Permutation (concat (map snd (get_services_by_category db))) (get_services db None).
Proof.
  unfold get_services_by_category, get_services.
  generalize (order_by_category_name (active_services db)). intros rows.
  assert (H : forall rows g,
             NoDup (map fst g) ->
             Forall (fun g => snd g <> [] /\ Forall (fun s => category s = fst g) (snd g)) g ->
             NoDup (map fst (fold_left add_to_category rows g)) /\
             Forall (fun g => snd g <> [] /\ Forall (fun s => category s = fst g) (snd g))
                    (fold_left add_to_category rows g) /\
             Permutation (concat (map snd (fold_left add_to_category rows g)))
                         (concat (map snd g) ++ rows)).
  { clear. induction rows as [|s rows IH]; intros g Hnd Hall; cbn [fold_left].
    - rewrite app_nil_r. repeat split; [assumption..|reflexivity].
    - destruct (IH (add_to_category g s)) as (H1 & H2 & H3);
        [apply add_to_category_keys; exact Hnd|apply add_to_category_groups; exact Hall|].
      split; [exact H1|]. split; [exact H2|].
      rewrite H3, add_to_category_members. cbn [app]. apply Permutation_middle. }
  destruct (H rows []) as (H1 & H2 & H3); [apply NoDup_nil_2|constructor|].
  repeat split; assumption.
Qed.

(** * The start of the database: [init_db] *)

Lemma insert_services_app pending :
  forall rows, exists new_rows,
    Startup.insert_services rows pending = (rows ++ new_rows)%list /\
    map name new_rows = map name pending.
Proof.
  induction pending as [|d pending IH]; intros rows; cbn [Startup.insert_services].
  - exists []. rewrite app_nil_r. split; reflexivity.
  - destruct (IH (rows ++ [ {| service_id := Startup.next_service_id rows; name := name d;
                               description := description d; duration := duration d;
                               price := price d; category := category d;
                               is_active := true |} ])%list) as (new_rows & Hrows & Hnames).
    eexists. rewrite Hrows, <- app_assoc. split; [reflexivity|].
    cbn [app map name]. rewrite Hnames. reflexivity.
Qed.

Lemma existing_service_found db n :
  found (Startup.existing_service db n) = true <-> In n (map name (services db)).
Proof.
  unfold Startup.existing_service. rewrite in_map_iff. split.
  - destruct (List.filter (fun s => bool_decide (name s = n)) (services db)) as [|s l] eqn:E;
      cbn [head found]; [discriminate|].
    intros _. assert (Hf : In s (s :: l)) by (left; reflexivity).
    rewrite <- E in Hf. apply filter_In in Hf as (Hin & Hn).
    apply bool_decide_eq_true in Hn. exists s. split; assumption.
  - intros (s & Hn & Hin).
    destruct (List.filter (fun s => bool_decide (name s = n)) (services db)) as [|s' l] eqn:E;
      cbn [head found]; [|reflexivity].
    exfalso.
    assert (Hf : In s (List.filter (fun s => bool_decide (name s = n)) (services db)))
      by (apply filter_In; split; [exact Hin|apply bool_decide_eq_true; exact Hn]).
    rewrite E in Hf. exact Hf.
Qed.

Lemma pending_services_In db d :
  In d (Startup.pending_services db) <->
  In d default_services /\ ~ In (name d) (map name (services db)).
Proof.
  unfold Startup.pending_services. rewrite filter_In, negb_true_iff.
  rewrite <- existing_service_found.
  destruct (found (Startup.existing_service db (name d))); intuition congruence.
Qed.

Lemma default_service_names_distinct : NoDup (map name default_services).
Proof. apply (bool_decide_unpack _). vm_compute. exact I. Qed.

Lemma NoDup_map_filter {A B : Type} (f : A -> B) (p : A -> bool) (l : list A) :
  NoDup (map f l) -> NoDup (map f (List.filter p l)).
Proof.
  induction l as [|x l IH]; cbn [map List.filter]; [auto|].
  intros Hnd. apply NoDup_cons in Hnd as (Hx & Hnd).
  destruct (p x); cbn [map]; [|apply IH; exact Hnd].
  apply NoDup_cons. split; [|apply IH; exact Hnd].
  intros Hin. apply Hx. apply list_elem_of_In, in_map_iff in Hin as (y & Hy & Hin).
  apply filter_In in Hin as (Hin & _). apply list_elem_of_In, in_map_iff. exists y. auto.
Qed.

(** Running [init_db] again changes nothing. *)
Theorem init_db_idempotent db :
  Startup.init_db (Startup.init_db db) = Startup.init_db db.
Proof.
  unfold Startup.init_db at 1. cbn [Startup.init_db bookings services].
  assert (Hnone : Startup.pending_services (Startup.init_db db) = []).
  { destruct (Startup.pending_services (Startup.init_db db)) as [|d l] eqn:E; [reflexivity|].
    exfalso. assert (Hd : In d (d :: l)) by (left; reflexivity).
    rewrite <- E in Hd. apply pending_services_In in Hd as (Hdef & Hnot). apply Hnot.
    cbn [Startup.init_db services].
    destruct (insert_services_app (Startup.pending_services db) (services db))
      as (new_rows & -> & Hnames).
    rewrite map_app, Hnames. apply in_or_app.
    destruct (in_dec string_dec (name d) (map name (services db))) as [Hin|Hout];
      [left; exact Hin|right].
    apply in_map. apply pending_services_In. split; assumption. }
  rewrite Hnone. reflexivity.
Qed.

(** [init_db] leaves the rows of the catalogue as and where they are and
    adds rows after them; it adds no row under a name that the catalogue
    has, so names that are distinct stay distinct, and the bookings are not
    touched. *)
Theorem init_db_keeps_rows db :
  exists new_rows,
    services (Startup.init_db db) = (services db ++ new_rows)%list /\
    Forall (fun s => ~ In (name s) (map name (services db))) new_rows /\
    (NoDup (map name (services db)) -> NoDup (map name (services (Startup.init_db db)))) /\
    bookings (Startup.init_db db) = bookings db.
Proof.
  cbn [Startup.init_db services bookings].
  destruct (insert_services_app (Startup.pending_services db) (services db))
    as (new_rows & Hrows & Hnames).
  exists new_rows. rewrite Hrows.
  assert (Hfresh : forall n, In n (map name new_rows) -> ~ In n (map name (services db))).
  { intros n Hn. rewrite Hnames in Hn. apply in_map_iff in Hn as (d & <- & Hd).
    apply pending_services_In in Hd as (_ & Hnot). exact Hnot. }
  split; [reflexivity|]. split; [|split; [|reflexivity]].
  - apply List.Forall_forall. intros s Hs. apply Hfresh, in_map. exact Hs.
  - intros Hnd. rewrite map_app. apply NoDup_app. split; [exact Hnd|]. split.
    + intros n Hn Hn'. apply list_elem_of_In in Hn, Hn'. exact (Hfresh n Hn' Hn).
    + rewrite Hnames. apply NoDup_map_filter. exact default_service_names_distinct.
Qed.

(** A name that the catalogue has resolves after [init_db] as it did
    before: a default service that was taken out of the offer is neither
    added again nor made active, and stays unknown to the booking routes. *)
Theorem init_db_keeps_known_names db n :
  In n (map name (services db)) ->
  active_services_named (Startup.init_db db) n = active_services_named db n.
Proof.
  intros Hn. unfold active_services_named. cbn [Startup.init_db services].
  destruct (insert_services_app (Startup.pending_services db) (services db))
    as (new_rows & -> & Hnames).
  rewrite List.filter_app.
  replace (List.filter (fun s => bool_decide (name s = n) && is_active s) new_rows)
    with (@nil Service); [apply app_nil_r|].
  symmetry.
  destruct (List.filter (fun s => bool_decide (name s = n) && is_active s) new_rows)
    as [|s l] eqn:E; [reflexivity|].
  exfalso. assert (Hs : In s (s :: l)) by (left; reflexivity).
  rewrite <- E in Hs. apply filter_In in Hs as (Hin & Hb).
  apply andb_true_iff in Hb as (Hb & _). apply bool_decide_eq_true in Hb. subst n.
  assert (Hp : In (name s) (map name (Startup.pending_services db)))
    by (rewrite <- Hnames; apply in_map; exact Hin).
  apply in_map_iff in Hp as (d & Hd & Hpd). apply pending_services_In in Hpd as (_ & Hnot).
  rewrite Hd in Hnot. exact (Hnot Hn).
Qed.

Lemma init_db_keeps_known_names_witness :
  active_services_named (Startup.init_db retired_facial_db) "Classic Facial" = [].
Proof.
  rewrite (init_db_keeps_known_names retired_facial_db "Classic Facial").
  - vm_compute. reflexivity.
  - cbn. left. reflexivity.
Defined.

Lemma service_id_below_next rows s :
  In s rows -> service_id s < Startup.next_service_id rows.
Proof.
  unfold Startup.next_service_id. induction rows as [|s' rows IH]; cbn [In map fold_right].
  - tauto.
  - intros [->|Hin]; [lia|]. specialize (IH Hin). lia.
Qed.

Lemma insert_services_keys pending :
  forall rows,
    NoDup (map service_id rows) ->
    NoDup (map service_id (Startup.insert_services rows pending)).
Proof.
  induction pending as [|d pending IH]; intros rows Hnd; cbn [Startup.insert_services];
    [exact Hnd|].
  apply IH. rewrite map_app. cbn [map service_id].
  apply NoDup_app. split; [exact Hnd|]. split; [|apply NoDup_singleton].
  intros x Hx Hx'. apply list_elem_of_singleton in Hx'. subst x.
  apply list_elem_of_In, in_map_iff in Hx as (s & Hid & Hin).
  apply service_id_below_next in Hin. lia.
Qed.

(** The keys of the catalogue stay distinct under [init_db]. *)
Theorem init_db_keys_distinct db :
  NoDup (map service_id (services db)) ->
  NoDup (map service_id (services (Startup.init_db db))).
Proof.
  intros Hnd. cbn [Startup.init_db services]. apply insert_services_keys. exact Hnd.
Qed.

Lemma init_db_keys_distinct_witness :
  NoDup (map service_id (services (Startup.init_db retired_facial_db))).
Proof.
  apply (init_db_keys_distinct retired_facial_db).
  apply (bool_decide_unpack _). vm_compute. exact I.
Defined.

(** On a database without rows [init_db] leaves the seven default
    services, keyed 1 to 7 and active, and no booking. *)
Lemma init_db_of_empty :
  Startup.init_db {| services := []; bookings := [] |} = Database.init_db.
Proof. vm_compute. reflexivity. Qed.

(** * Times as texts, and the days of the week *)

(** The texts [%H:%M] of two times of day are in the order of the times,
    and are the same only for the same time: comparing and collecting the
    texts, as the routes do, is comparing and collecting the times. *)
Theorem strftime_HM_faithful a b :
  0 <= a < 1440 -> 0 <= b < 1440 ->
  String.compare (strftime_HM a) (strftime_HM b) = (a ?= b) /\
  (strftime_HM a = strftime_HM b <-> a = b).
Proof.
  intros Ha Hb. split; [apply strftime_HM_compare; assumption|].
  split; [apply strftime_HM_inj; assumption|]. intros ->. reflexivity.
Qed.

Lemma strftime_HM_faithful_witness :
  String.compare (strftime_HM 570) (strftime_HM 1200) = Lt /\
  strftime_HM 570 = "09:30".
Proof.
  destruct (strftime_HM_faithful 570 1200) as (Hc & _); [lia|lia|].
  split; [rewrite Hc; reflexivity|reflexivity].
Defined.

Lemma day_name_is_weekday date : In (day_name date) weekday_names.
Proof.
  unfold day_name.
  assert (H : 0 <= (date + 6) mod 7 < 7) by (apply Z.mod_pos_bound; lia).
  assert (E : (date + 6) mod 7 = 0 \/ (date + 6) mod 7 = 1 \/ (date + 6) mod 7 = 2 \/
              (date + 6) mod 7 = 3 \/ (date + 6) mod 7 = 4 \/ (date + 6) mod 7 = 5 \/
              (date + 6) mod 7 = 6) by lia.
  destruct E as [->|[->|[->|[->|[->|[->| ->]]]]]]; cbn; tauto.
Qed.

(** With the default settings every day of the week has hours: no request
    is answered "Spa is closed on this day". *)
Theorem default_settings_never_closed env db r :
  create_booking settings env db r <> Raise ClosedOnDay.
Proof.
  intros H.
  assert (Hopen : forall date, business_hours settings !! day_name date <> None).
  { intros date. pose proof (day_name_is_weekday date) as Hd. cbn [weekday_names In] in Hd.
    destruct Hd as [<-|[<-|[<-|[<-|[<-|[<-|[<-|[]]]]]]]]; vm_compute; discriminate. }
  revert H. unfold create_booking.
  destruct (active_services_named db (req_service_name r)) as [|svc rest];
    cbn [first_or mbind result_bind]; [discriminate|].
  destruct (strptime r) as [dt|e] eqn:Hp; cbn [mbind result_bind].
  2:{ apply strptime_Raise in Hp as ->. discriminate. }
  destruct (datetime_leb dt (now env)); cbn [raise_if mbind result_bind]; [discriminate|].
  specialize (Hopen (dt_date dt)).
  destruct (business_hours settings !! day_name (dt_date dt)) as [hours|]; [|congruence].
  destruct ((dt_minute dt <? open hours) || (close hours <? dt_minute dt));
    cbn [raise_if mbind result_bind]; [discriminate|].
  destruct (found _); cbn [raise_if mbind result_bind mret result_ret]; discriminate.
Qed.
